(** * Observe2Agent pipeline simulator: a shallow embedding and its properties

    The development follows the client-side pipeline simulator of the
    front end (the [Home] component: [runPipeline], [handleFileSelect],
    the demo button, and the generators [generateMockAnalysis],
    [generateMockSOP], [generateMockExecution], [generateMockValidation]
    with the helper [randomHex]).

    Modelling decisions, all visible in the definitions below:
    - a JavaScript [number] is an IEEE-754 binary64 value, here a
      primitive [float]; [<], [>=], [===] and [/] are the primitive
      operations, so NaN behaves as in the source;
    - array lengths ([.length], the counters derived from it) are kept
      as [nat] and converted with [of_length] where the source does
      floating-point arithmetic on them;
    - [Math.random()] and [new Date().toLocaleTimeString()] read from
      two streams that are part of the state; every call consumes one
      element, in the order in which the source evaluates the calls;
    - React state ([pipeline], [logs], [activeTab]) is a record that the
      state setters update; every [setPipeline] also appends the new
      pipeline state to [snapshots], a ghost history used to state
      properties of the intermediate states of a run;
    - a thrown exception is the left summand of the result, and
      [try_catch] is the source's [try { ... } catch (err) { ... }];
    - [await delay(ms)] only orders the statements of one run; waiting
      is not modelled, and a run is not interleaved with other event
      handlers. *)

From Stdlib Require Import ZArith List String Ascii Bool Lia QArith.
From Stdlib Require Import Uint63 Floats.
From Stdlib Require DecimalString.
Import ListNotations.

#[local] Set Warnings "-inexact-float".
#[local] Open Scope string_scope.
#[local] Open Scope list_scope.
#[local] Open Scope nat_scope.

(** ** JavaScript numbers *)

Definition number := float.

(** [x < y] *)
Definition num_lt (x y : number) : bool := PrimFloat.ltb x y.

(** [x >= y] *)
Definition num_ge (x y : number) : bool := PrimFloat.leb y x.

(** [x === y] on numbers: false when either side is NaN. *)
Definition num_eq (x y : number) : bool := PrimFloat.eqb x y.

(** [x / y] *)
Definition num_div (x y : number) : number := PrimFloat.div x y.

(** [x * y] *)
Definition num_mul (x y : number) : number := PrimFloat.mul x y.

(** The number that holds an array length (exact below 2^53). *)
Definition of_length (n : nat) : number :=
  PrimFloat.of_uint63 (Uint63.of_Z (Z.of_nat n)).

(** The exact rational value of a finite number; [None] for NaN and the
    infinities.  Only used to compare a result with a rational. *)
Definition number_to_Q (x : number) : option Q :=
  match Prim2SF x with
  | S754_zero _ => Some 0%Q
  | S754_finite s m e =>
      let mag := (inject_Z (Z.pos m) * Qpower 2 e)%Q in
      Some (if s then Qopp mag else mag)
  | S754_infinity _ => None
  | S754_nan => None
  end.

(** ** Strings *)

(** [a || b] on an optional string: [undefined] and the empty string are
    falsy. *)
Definition or_else (a : option string) (b : string) : string :=
  match a with
  | Some s => if String.eqb s "" then b else s
  | None => b
  end.

(** Decimal rendering of a counter in a template string. *)
Definition string_of_nat (n : nat) : string :=
  DecimalString.NilEmpty.string_of_uint (Nat.to_uint n).

Definition upper_ascii (c : ascii) : ascii :=
  let n := nat_of_ascii c in
  if andb (97 <=? n) (n <=? 122) then ascii_of_nat (n - 32) else c.

(** [s.toUpperCase()] on ASCII text. *)
Fixpoint toUpperCase (s : string) : string :=
  match s with
  | EmptyString => EmptyString
  | String c r => String (upper_ascii c) (toUpperCase r)
  end.

(** [Math.floor(x)] for [0 <= x < 16], the range of
    [Math.random() * 16]: the number of integers [1..15] that are [<= x]. *)
Definition floor16 (x : number) : nat :=
  List.length (filter (fun k => num_ge x (of_length k)) (seq 1 15)).

(** [d.toString(16)] for a digit [d < 16]. *)
Definition hexDigit (d : nat) : string := substring d 1 "0123456789abcdef".

(** [x.toFixed(0)] for [0 <= x <= 100] or NaN: the nearest integer, the
    larger one on a tie. *)
Definition toFixed0 (x : number) : string :=
  if PrimFloat.is_nan x then "NaN"
  else string_of_nat
         (List.length
            (filter (fun k => num_ge x (PrimFloat.sub (of_length k) 0.5%float))
                    (seq 1 100))).

(** ** Data model *)

Module WorkflowStep.
Record t := mk {
  step_number : number;
  title : string;
  description : string;
  action_type : string;
  system : string;
  ui_elements : list string;
  expected_output : string;
  timestamp : number;
  duration : number }.
End WorkflowStep.

Module DetectedSystem.
Record t := mk {
  name : string;
  system_type : string;
  confidence : number;
  version : string }.
End DetectedSystem.

Module Pattern.
Record t := mk {
  field : string;
  confidence : number;
  example : string }.
End Pattern.

Module Analysis.
Record t := mk {
  workflow_steps : list WorkflowStep.t;
  systems_detected : list DetectedSystem.t;
  data_extraction_patterns : list Pattern.t;
  process_summary : string;
  video_duration_seconds : number;
  frames_analyzed : number }.
End Analysis.

Module Systems.
Record t := mk {
  total_systems_found : nat;
  detected_systems : list DetectedSystem.t;
  detected_workflows : list string }.
End Systems.

Module SOPStep.
Record t := mk {
  step_number : number;
  title : string;
  description : string;
  system_involved : string;
  action_type : string;
  expected_output : string }.
End SOPStep.

Module SOP.
Record t := mk {
  id : string;
  title : string;
  description : string;
  steps : list SOPStep.t;
  systems_involved : list string;
  success_criteria : string }.
End SOP.

Module StepResult.
Record t := mk {
  step_number : number;
  title : string;
  status : string;
  output : string }.
End StepResult.

Module Execution.
Record t := mk {
  execution_id : string;
  status : string;
  passed_steps : nat;
  total_steps : nat;
  success_rate : number;
  step_results : list StepResult.t }.
End Execution.

Module ValidationStep.
Record t := mk {
  step_number : number;
  title : string;
  status : string;
  match_score : number;
  expected : string;
  actual : string }.
End ValidationStep.

Module Validation.
Record t := mk {
  id : string;
  overall_status : string;
  passed_steps : nat;
  total_steps : nat;
  success_rate : number;
  validation_steps : list ValidationStep.t;
  recommendations : list string }.
End Validation.

(** ** The random source *)

(** The values that the successive calls of [Math.random()] return. *)
Definition RNG := nat -> number.

(** A computation that may call [Math.random()]. *)
Definition Rand (A : Type) := RNG -> A * RNG.

Definition rret {A} (a : A) : Rand A := fun g => (a, g).

Definition rbind {A B} (c : Rand A) (k : A -> Rand B) : Rand B :=
  fun g => let (a, g') := c g in k a g'.

Declare Scope rand_scope.
Delimit Scope rand_scope with rand.
Notation "x <- c ;; k" := (rbind c (fun x => k))
  (at level 61, c at next level, right associativity) : rand_scope.

Definition Math_random : Rand number :=
  fun g => (g 0, fun n => g (S n)).

(** [l.map(f)] where the callback calls [Math.random()]: the elements are
    visited from left to right. *)
Fixpoint mapR {A B} (f : A -> Rand B) (l : list A) : Rand (list B) :=
  match l with
  | [] => rret []
  | a :: r => (b <- f a ;; bs <- mapR f r ;; rret (b :: bs))%rand
  end.

(** [Array.from({ length: len }, () =>
      Math.floor(Math.random() * 16).toString(16)).join('')] *)
Fixpoint randomHex (len : nat) : Rand string :=
  match len with
  | O => rret ""
  | S n =>
      (r <- Math_random ;;
       rest <- randomHex n ;;
       rret (hexDigit (floor16 (num_mul r 16%float)) ++ rest)%string)%rand
  end.

(** ** Artifact generators *)

Definition mockWorkflowSteps : list WorkflowStep.t :=
  [ WorkflowStep.mk 1%float "Open SAP ERP System"
      "User navigates to SAP Fiori Launchpad via browser" "navigate" "SAP ERP"
      ["SAP Fiori Launchpad"; "Browser URL bar"]
      "SAP dashboard loaded" 0%float 8.5%float;
    WorkflowStep.mk 2%float "Enter Authentication Credentials"
      "User enters username and password into SAP login form" "input" "SAP ERP"
      ["Username field"; "Password field"; "Sign In button"]
      "Authentication successful, main menu displayed" 8.5%float 12.3%float;
    WorkflowStep.mk 3%float "Navigate to Purchase Order Module"
      "User opens Materials Management > Purchase Order > Create (ME21N)"
      "click" "SAP ERP"
      ["Main Menu"; "Materials Management"; "Create PO button"]
      "Purchase Order creation form opened" 20.8%float 6.2%float;
    WorkflowStep.mk 4%float "Fill Purchase Order Form"
      "User enters vendor V-1001, material MAT-5890, quantity 500, delivery date"
      "input" "SAP ERP"
      ["Vendor field"; "Material field"; "Quantity field"]
      "PO form populated with all required fields" 27.0%float 18.7%float;
    WorkflowStep.mk 5%float "Submit and Verify Purchase Order"
      "User clicks Submit, PO number 4500012847 is generated" "click" "SAP ERP"
      ["Submit button"; "Confirmation dialog"; "PO number display"]
      "PO 4500012847 created, status: Pending Approval" 45.7%float 10.1%float ].

Definition generateMockAnalysis : Analysis.t :=
  {| Analysis.workflow_steps := mockWorkflowSteps;
     Analysis.systems_detected :=
       [ DetectedSystem.mk "SAP ERP" "erp" 0.96%float "S/4HANA 2023";
         DetectedSystem.mk "Microsoft Outlook" "email" 0.82%float "Microsoft 365";
         DetectedSystem.mk "Chrome Browser" "other" 0.71%float "v120" ];
     Analysis.data_extraction_patterns :=
       [ Pattern.mk "PO_Number" 0.95%float "4500012847";
         Pattern.mk "Vendor_ID" 0.92%float "V-1001";
         Pattern.mk "Material_Code" 0.90%float "MAT-5890";
         Pattern.mk "Quantity" 0.88%float "500";
         Pattern.mk "Total_Amount" 0.85%float "$125,000.00" ];
     Analysis.process_summary :=
       "SAP Purchase Order Creation - User logs into SAP S/4HANA, navigates to ME21N, fills vendor/material/quantity details, submits PO, and receives confirmation";
     Analysis.video_duration_seconds := 55.8%float;
     Analysis.frames_analyzed := 167%float |}.

Definition sopStepOf (ws : WorkflowStep.t) : SOPStep.t :=
  {| SOPStep.step_number := WorkflowStep.step_number ws;
     SOPStep.title := WorkflowStep.title ws;
     SOPStep.description := WorkflowStep.description ws;
     SOPStep.system_involved := WorkflowStep.system ws;
     SOPStep.action_type := WorkflowStep.action_type ws;
     SOPStep.expected_output := WorkflowStep.expected_output ws |}.

Definition generateMockSOP (videoId : string) (analysis : Analysis.t)
  : Rand SOP.t :=
  (hex <- randomHex 8 ;;
   rret {| SOP.id := ("sop-" ++ hex)%string;
           SOP.title := "SAP Purchase Order Creation";
           SOP.description := Analysis.process_summary analysis;
           SOP.steps := map sopStepOf (Analysis.workflow_steps analysis);
           SOP.systems_involved :=
             ["SAP ERP"; "Microsoft Outlook"; "Chrome Browser"];
           SOP.success_criteria :=
             "PO number generated; Status shows Pending Approval; Email confirmation triggered" |})%rand.

(** The callback of [sop.steps.map] in [generateMockExecution]: the
    object literal evaluates [status] before [output], each with a call
    of [Math.random()] of its own. *)
Definition stepResultOf (s : SOPStep.t) : Rand StepResult.t :=
  (r1 <- Math_random ;;
   r2 <- Math_random ;;
   rret {| StepResult.step_number := SOPStep.step_number s;
           StepResult.title := SOPStep.title s;
           StepResult.status :=
             if num_lt r1 0.92%float then "completed" else "failed";
           StepResult.output :=
             if num_lt r2 0.92%float then SOPStep.expected_output s
             else "Element not found" |})%rand.

Definition is_completed (s : StepResult.t) : bool :=
  String.eqb (StepResult.status s) "completed".

Definition generateMockExecution (sop : SOP.t) : Rand Execution.t :=
  (stepResults <- mapR stepResultOf (SOP.steps sop) ;;
   let passed := List.length (filter is_completed stepResults) in
   hex <- randomHex 8 ;;
   rret {| Execution.execution_id := ("exec-" ++ hex)%string;
           Execution.status :=
             if Nat.eqb passed (List.length stepResults)
             then "completed" else "partial";
           Execution.passed_steps := passed;
           Execution.total_steps := List.length stepResults;
           Execution.success_rate :=
             num_div (of_length passed) (of_length (List.length stepResults));
           Execution.step_results := stepResults |})%rand.

(** The callback of [sop.steps.map] in [generateMockValidation]. *)
Definition validationStepOf (execution : Execution.t) (s : SOPStep.t)
  : ValidationStep.t :=
  let execStep :=
    find (fun e => num_eq (StepResult.step_number e) (SOPStep.step_number s))
         (Execution.step_results execution) in
  let matchScore :=
    if match execStep with
       | Some e => String.eqb (StepResult.status e) "completed"
       | None => false
       end
    then 1.0%float else 0.16%float in
  {| ValidationStep.step_number := SOPStep.step_number s;
     ValidationStep.title := SOPStep.title s;
     ValidationStep.status :=
       if num_ge matchScore 0.8%float then "passed"
       else if num_ge matchScore 0.5%float then "partial" else "failed";
     ValidationStep.match_score := matchScore;
     ValidationStep.expected := SOPStep.expected_output s;
     ValidationStep.actual :=
       or_else (option_map StepResult.output execStep) "No data" |}.

Definition is_passed (v : ValidationStep.t) : bool :=
  String.eqb (ValidationStep.status v) "passed".

Definition reviewMessage : string :=
  "Review failed steps and add explicit waits for element selectors".

Definition allPassedMessage : string :=
  "All steps passed. Consider adding edge case tests.".

Definition generateMockValidation (sop : SOP.t) (execution : Execution.t)
  : Rand Validation.t :=
  let validationSteps := map (validationStepOf execution) (SOP.steps sop) in
  let passed := List.length (filter is_passed validationSteps) in
  let rate := num_div (of_length passed) (of_length (List.length validationSteps)) in
  (hex <- randomHex 8 ;;
   rret {| Validation.id := ("val-" ++ hex)%string;
           Validation.overall_status :=
             if num_ge rate 0.95%float then "passed"
             else if num_ge rate 0.5%float then "partial" else "failed";
           Validation.passed_steps := passed;
           Validation.total_steps := List.length validationSteps;
           Validation.success_rate := rate;
           Validation.validation_steps := validationSteps;
           Validation.recommendations :=
             if num_lt rate 1%float then [reviewMessage]
             else [allPassedMessage] |})%rand.

(** The execution step result that [generateMockValidation] looks up for
    a step number: [execution.step_results.find(e => e.step_number === n)]. *)
Definition execStepFor (execution : Execution.t) (n : number)
  : option StepResult.t :=
  find (fun e => num_eq (StepResult.step_number e) n)
       (Execution.step_results execution).

(** [execStep?.status === 'completed'] *)
Definition completed_opt (e : option StepResult.t) : bool :=
  match e with
  | Some r => String.eqb (StepResult.status r) "completed"
  | None => false
  end.

(** ** Sample inputs *)

(** A random source that always returns [0.5]. *)
Definition rng_half : RNG := fun _ => 0.5%float.

(** A random source that returns [0.95] at the calls listed in [hi] and
    [0.5] at all others. *)
Definition rng_high_at (hi : list nat) : RNG :=
  fun n => if existsb (Nat.eqb n) hi then 0.95%float else 0.5%float.

(** The SOP that stage 4 of the pipeline builds from the mock analysis. *)
Definition mockSOP : SOP.t :=
  fst (generateMockSOP "video-88888888" generateMockAnalysis rng_half).

Definition emptySOP : SOP.t :=
  {| SOP.id := "sop-00000000"; SOP.title := ""; SOP.description := "";
     SOP.steps := []; SOP.systems_involved := []; SOP.success_criteria := "" |}.

(** A SOP whose only step expects the empty string as output. *)
Definition blankOutputSOP : SOP.t :=
  {| SOP.id := "sop-00000000"; SOP.title := "Blank"; SOP.description := "";
     SOP.steps :=
       [ {| SOPStep.step_number := 1%float; SOPStep.title := "Clear the field";
            SOPStep.description := "User clears the search field";
            SOPStep.system_involved := "SAP ERP";
            SOPStep.action_type := "input";
            SOPStep.expected_output := "" |} ];
     SOP.systems_involved := ["SAP ERP"]; SOP.success_criteria := "" |}.

(** ** Pipeline state *)

Inductive Status := idle | running | completed | failed.

Module PipelineState.
Record t := mk {
  stage : nat;
  status : Status;
  videoId : option string;
  analysis : option Analysis.t;
  systems : option Systems.t;
  sop : option SOP.t;
  execution : option Execution.t;
  validation : option Validation.t }.
End PipelineState.

(** The value given to [useState<PipelineState>]. *)
Definition initialPipeline : PipelineState.t :=
  {| PipelineState.stage := 0; PipelineState.status := idle;
     PipelineState.videoId := None;
     PipelineState.analysis := None; PipelineState.systems := None;
     PipelineState.sop := None; PipelineState.execution := None;
     PipelineState.validation := None |}.

(** The object spreads [{ ...p, field: value }] of the state updaters. *)
Definition with_stage (n : nat) (p : PipelineState.t) : PipelineState.t :=
  PipelineState.mk n (PipelineState.status p) (PipelineState.videoId p)
    (PipelineState.analysis p) (PipelineState.systems p) (PipelineState.sop p)
    (PipelineState.execution p) (PipelineState.validation p).

Definition with_status (s : Status) (p : PipelineState.t) : PipelineState.t :=
  PipelineState.mk (PipelineState.stage p) s (PipelineState.videoId p)
    (PipelineState.analysis p) (PipelineState.systems p) (PipelineState.sop p)
    (PipelineState.execution p) (PipelineState.validation p).

Definition with_videoId (v : string) (p : PipelineState.t) : PipelineState.t :=
  PipelineState.mk (PipelineState.stage p) (PipelineState.status p) (Some v)
    (PipelineState.analysis p) (PipelineState.systems p) (PipelineState.sop p)
    (PipelineState.execution p) (PipelineState.validation p).

Definition with_analysis (a : Analysis.t) (p : PipelineState.t)
  : PipelineState.t :=
  PipelineState.mk (PipelineState.stage p) (PipelineState.status p)
    (PipelineState.videoId p) (Some a) (PipelineState.systems p)
    (PipelineState.sop p) (PipelineState.execution p)
    (PipelineState.validation p).

Definition with_systems (s : Systems.t) (p : PipelineState.t)
  : PipelineState.t :=
  PipelineState.mk (PipelineState.stage p) (PipelineState.status p)
    (PipelineState.videoId p) (PipelineState.analysis p) (Some s)
    (PipelineState.sop p) (PipelineState.execution p)
    (PipelineState.validation p).

Definition with_sop (s : SOP.t) (p : PipelineState.t) : PipelineState.t :=
  PipelineState.mk (PipelineState.stage p) (PipelineState.status p)
    (PipelineState.videoId p) (PipelineState.analysis p)
    (PipelineState.systems p) (Some s) (PipelineState.execution p)
    (PipelineState.validation p).

Definition with_execution (e : Execution.t) (p : PipelineState.t)
  : PipelineState.t :=
  PipelineState.mk (PipelineState.stage p) (PipelineState.status p)
    (PipelineState.videoId p) (PipelineState.analysis p)
    (PipelineState.systems p) (PipelineState.sop p) (Some e)
    (PipelineState.validation p).

Definition with_validation (v : Validation.t) (p : PipelineState.t)
  : PipelineState.t :=
  PipelineState.mk (PipelineState.stage p) (PipelineState.status p)
    (PipelineState.videoId p) (PipelineState.analysis p)
    (PipelineState.systems p) (PipelineState.sop p)
    (PipelineState.execution p) (Some v).

Inductive Tab := TabDashboard | TabPipeline | TabResults.

(** The component state that [runPipeline] reads and writes, the two
    input streams, and the ghost history of pipeline states. *)
Record World := mkWorld {
  pipeline : PipelineState.t;
  logs : list string;
  activeTab : Tab;
  rng : RNG;
  clock : nat -> string;
  snapshots : list PipelineState.t }.

Definition initialWorld (g : RNG) (c : nat -> string) : World :=
  {| pipeline := initialPipeline; logs := []; activeTab := TabDashboard;
     rng := g; clock := c; snapshots := [] |}.

(** ** The monad of [runPipeline]: state and exceptions *)

(** The value that [catch (err)] binds, as [`${err}`] renders it. *)
Definition Exn := string.

Definition M (A : Type) := World -> (Exn + A) * World.

Definition mret {A} (a : A) : M A := fun w => (inr a, w).

Definition mbind {A B} (c : M A) (k : A -> M B) : M B :=
  fun w =>
    match c w with
    | (inl err, w') => (inl err, w')
    | (inr a, w') => k a w'
    end.

Declare Scope pipe_scope.
Delimit Scope pipe_scope with pipe.
Notation "x <- c ;; k" := (mbind c (fun x => k))
  (at level 61, c at next level, right associativity) : pipe_scope.
Notation "c ;; k" := (mbind c (fun _ => k))
  (at level 61, right associativity) : pipe_scope.

(** [try { body } catch (err) { handler }] *)
Definition try_catch (body : M unit) (handler : Exn -> M unit) : M unit :=
  fun w =>
    match body w with
    | (inl err, w') => handler err w'
    | (inr tt, w') => (inr tt, w')
    end.

(** [setPipeline(p => f(p))] *)
Definition setPipeline (f : PipelineState.t -> PipelineState.t) : M unit :=
  fun w =>
    let p := f (pipeline w) in
    (inr tt, mkWorld p (logs w) (activeTab w) (rng w) (clock w)
                     (snapshots w ++ [p])).

Definition setActiveTab (t : Tab) : M unit :=
  fun w =>
    (inr tt, mkWorld (pipeline w) (logs w) t (rng w) (clock w) (snapshots w)).

(** [addLog(msg)]:
    [setLogs(prev => [...prev, `[${new Date().toLocaleTimeString()}] ${msg}`])] *)
Definition addLog (msg : string) : M unit :=
  fun w =>
    (inr tt,
     mkWorld (pipeline w)
             (logs w ++ [("[" ++ clock w 0 ++ "] " ++ msg)%string])
             (activeTab w) (rng w) (fun n => clock w (S n)) (snapshots w)).

(** [await delay(ms)] *)
Definition delay (ms : nat) : M unit := mret tt.

Definition liftRand {A} (c : Rand A) : M A :=
  fun w =>
    let (a, g) := c (rng w) in
    (inr a, mkWorld (pipeline w) (logs w) (activeTab w) g (clock w)
                    (snapshots w)).

(** A stage generator: it may draw random numbers and it may throw. *)
Definition Gen (A : Type) := RNG -> (Exn + A) * RNG.

Definition callGen {A} (c : Gen A) : M A :=
  fun w =>
    let (r, g) := c (rng w) in
    (r, mkWorld (pipeline w) (logs w) (activeTab w) g (clock w) (snapshots w)).

(** The four generators that [runPipeline] calls.  [mockGenerators] are
    the ones of the source; other instances stand for generators that
    throw. *)
Record Generators := mkGenerators {
  genAnalysis : Gen Analysis.t;
  genSOP : string -> Analysis.t -> Gen SOP.t;
  genExecution : SOP.t -> Gen Execution.t;
  genValidation : SOP.t -> Execution.t -> Gen Validation.t }.

Definition pureGen {A} (c : Rand A) : Gen A :=
  fun g => let (a, g') := c g in (inr a, g').

Definition mockGenerators : Generators :=
  {| genAnalysis := pureGen (rret generateMockAnalysis);
     genSOP := fun videoId analysis => pureGen (generateMockSOP videoId analysis);
     genExecution := fun sop => pureGen (generateMockExecution sop);
     genValidation :=
       fun sop execution => pureGen (generateMockValidation sop execution) |}.

(** ** The pipeline run *)

(** The [systems] object literal of stage 3. *)
Definition systemsOf (analysis : Analysis.t) : Systems.t :=
  {| Systems.total_systems_found :=
       List.length (Analysis.systems_detected analysis);
     Systems.detected_systems := Analysis.systems_detected analysis;
     Systems.detected_workflows :=
       ["Form Filling"; "System Navigation"; "UI Interaction"] |}.

(** The body of the [try] block of [runPipeline]. *)
Definition pipelineStages (G : Generators) (framework : string) : M unit :=
  (addLog "Stage 1: Uploading video..." ;;
   delay 800 ;;
   hex <- liftRand (randomHex 8) ;;
   let videoId := ("video-" ++ hex)%string in
   setPipeline (fun p => with_videoId videoId (with_stage 1 p)) ;;
   addLog ("Video uploaded: " ++ videoId) ;;

   setPipeline (with_stage 2) ;;
   addLog "Stage 2: Analyzing video with Gemini AI..." ;;
   delay 1500 ;;
   analysis <- callGen (genAnalysis G) ;;
   setPipeline (with_analysis analysis) ;;
   addLog ("Analysis complete: "
           ++ string_of_nat (List.length (Analysis.workflow_steps analysis))
           ++ " steps, "
           ++ string_of_nat (List.length (Analysis.systems_detected analysis))
           ++ " systems") ;;

   setPipeline (with_stage 3) ;;
   addLog "Stage 3: Detecting enterprise systems..." ;;
   delay 800 ;;
   let systems := systemsOf analysis in
   setPipeline (with_systems systems) ;;
   addLog ("Detected " ++ string_of_nat (Systems.total_systems_found systems)
           ++ " systems") ;;

   setPipeline (with_stage 4) ;;
   addLog "Stage 4: Generating SOP document..." ;;
   delay 1000 ;;
   sop <- callGen (genSOP G videoId analysis) ;;
   setPipeline (with_sop sop) ;;
   addLog ("SOP generated: " ++ SOP.id sop) ;;

   setPipeline (with_stage 5) ;;
   addLog "Stage 5: Mapping to enterprise systems..." ;;
   delay 700 ;;
   addLog "ECM mapping complete: 100% automation coverage" ;;

   setPipeline (with_stage 6) ;;
   addLog ("Stage 6: Generating " ++ toUpperCase framework ++ " code...") ;;
   delay 1000 ;;
   addLog ("Code generated: "
           ++ (if String.eqb framework "adk" then "3 files" else "1 file")) ;;

   setPipeline (with_stage 7) ;;
   addLog "Stage 7: Executing automation..." ;;
   delay 1200 ;;
   execution <- callGen (genExecution G sop) ;;
   setPipeline (with_execution execution) ;;
   addLog ("Execution " ++ Execution.execution_id execution ++ ": "
           ++ string_of_nat (Execution.passed_steps execution) ++ "/"
           ++ string_of_nat (Execution.total_steps execution) ++ " passed") ;;

   setPipeline (with_stage 8) ;;
   addLog "Stage 8: Validating results..." ;;
   delay 800 ;;
   validation <- callGen (genValidation G sop execution) ;;
   setPipeline (fun p => with_status completed (with_validation validation p)) ;;
   addLog ("Validation: " ++ toUpperCase (Validation.overall_status validation)
           ++ " - "
           ++ toFixed0 (num_mul (Validation.success_rate validation) 100%float)
           ++ "%") ;;
   addLog "Pipeline completed successfully!")%string%pipe.

(** The [catch (err)] block of [runPipeline]. *)
Definition pipelineFailed (err : Exn) : M unit :=
  (setPipeline (with_status failed) ;;
   addLog ("Pipeline failed: " ++ err)%string)%pipe.

(** The statements of [runPipeline] that precede the [try] block. *)
Definition pipelineStart (fileName : string) : M unit :=
  (setPipeline (fun p => with_stage 1 (with_status running p)) ;;
   setActiveTab TabPipeline ;;
   addLog ("Starting pipeline for: " ++ fileName)%string)%pipe.

(** [runPipeline(fileName)] with the generators as a parameter;
    [framework] is the component state that the callback closes over. *)
Definition runPipelineWith (G : Generators) (framework fileName : string)
  : M unit :=
  (pipelineStart fileName ;;
   try_catch (pipelineStages G framework) pipelineFailed)%pipe.

(** [runPipeline(fileName)] as the source has it. *)
Definition runPipeline (framework fileName : string) : M unit :=
  runPipelineWith mockGenerators framework fileName.

Module File.
Record t := mk { name : string }.
End File.

(** [handleFileSelect(files)] with [files : FileList | null]. *)
Definition handleFileSelect (framework : string) (files : option (list File.t))
  : M unit :=
  match files with
  | Some (f :: _) => runPipeline framework (File.name f)
  | _ => mret tt
  end.

(** A click on the "Run Demo Pipeline" button, which is rendered with
    [disabled={pipeline.status === 'running'}]. *)
Definition clickRunDemo (framework : string) : M unit :=
  fun w =>
    match PipelineState.status (pipeline w) with
    | running => (inr tt, w)
    | _ => runPipeline framework "demo_sap_purchase_order.mp4" w
    end.

(** The five stage artifacts with the stage that produces each. *)
Definition has_artifact (n : nat) (p : PipelineState.t) : bool :=
  match n with
  | 2 => match PipelineState.analysis p with Some _ => true | None => false end
  | 3 => match PipelineState.systems p with Some _ => true | None => false end
  | 4 => match PipelineState.sop p with Some _ => true | None => false end
  | 7 => match PipelineState.execution p with Some _ => true | None => false end
  | 8 => match PipelineState.validation p with Some _ => true | None => false end
  | _ => false
  end.

Definition artifact_stages : list nat := [2; 3; 4; 7; 8].

Definition no_artifacts (p : PipelineState.t) : Prop :=
  PipelineState.analysis p = None /\ PipelineState.systems p = None /\
  PipelineState.sop p = None /\ PipelineState.execution p = None /\
  PipelineState.validation p = None.

(** A clock that always shows the same time. *)
Definition clock_noon : nat -> string := fun _ => "12:00:00 PM".

(** Generators in which the execution generator throws after it has
    drawn the random numbers of two steps. *)
Definition throwingExecution : Generators :=
  {| genAnalysis := genAnalysis mockGenerators;
     genSOP := genSOP mockGenerators;
     genExecution :=
       fun _ g => (inl "Error: element detached", fun n => g (4 + n));
     genValidation := genValidation mockGenerators |}.

(** The invariant that links the stage counter to one artifact: the
    artifact of stage [n] is present only from stage [n] on, and it is
    present once the stage counter has passed [n]. *)
Definition stage_artifact_ok (p : PipelineState.t) : bool :=
  forallb (fun n =>
             implb (has_artifact n p) (n <=? PipelineState.stage p) &&
             implb (n <? PipelineState.stage p) (has_artifact n p))
          artifact_stages.

(** The stage counter never decreases along a list of states. *)
Fixpoint stage_monotone (l : list PipelineState.t) : bool :=
  match l with
  | p :: ((q :: _) as r) =>
      (PipelineState.stage p <=? PipelineState.stage q) && stage_monotone r
  | _ => true
  end.

(** Half of the invariant, the one that needs no assumption on the
    state before the run: once the stage counter has passed [n], the
    artifact of stage [n] is present. *)
Definition recorded_after_stage (p : PipelineState.t) : bool :=
  forallb (fun n => implb (n <? PipelineState.stage p) (has_artifact n p))
          artifact_stages.

(** At every update that raises the stage counter, the artifact of the
    stage just entered is still absent. *)
Fixpoint entered_without_artifact (l : list PipelineState.t) : bool :=
  match l with
  | p :: ((q :: _) as r) =>
      (if PipelineState.stage p <? PipelineState.stage q
       then negb (has_artifact (PipelineState.stage q) q) else true)
      && entered_without_artifact r
  | _ => true
  end.

(** The distinct system names of a list of workflow steps, in order of
    first occurrence from the right; this follows the words of the
    specification of the SOP generator, not the source. *)
Definition spec_systems_observed (steps : list WorkflowStep.t) : list string :=
  nodup string_dec (map WorkflowStep.system steps).

(** ** Further definitions: conditions on the inputs *)

(** The contract of [Math.random()]: every value is in [0, 1).  It is the
    range in which [floor16] is [Math.floor] of sixteen times the value. *)
Definition in_unit_interval (g : RNG) : Prop :=
  forall n, num_ge (g n) 0%float = true /\ num_lt (g n) 1%float = true.

(** The characters that [toString(16)] produces. *)
Definition hexChars : list ascii := list_ascii_of_string "0123456789abcdef".

(** The numbers of a list are pairwise different under [===] and none of
    them is NaN (a NaN differs from itself). *)
Fixpoint distinct_numbers (l : list number) : bool :=
  match l with
  | [] => true
  | x :: r =>
      num_eq x x && forallb (fun y => negb (num_eq x y)) r && distinct_numbers r
  end.

(** An execution summary without step results, as a caller of
    [generateMockValidation] may pass. *)
Definition executionWithoutResults : Execution.t :=
  {| Execution.execution_id := "exec-00000000";
     Execution.status := "completed";
     Execution.passed_steps := 0; Execution.total_steps := 0;
     Execution.success_rate := PrimFloat.nan;
     Execution.step_results := [] |}.

(** A validation step that was computed from a given execution step
    result: same step number, the result's output as [actual] (with the
    "No data" fallback for an empty output), and score and status
    decided by the result's status alone. *)
Definition validates (r : StepResult.t) (vs : ValidationStep.t) : Prop :=
  ValidationStep.step_number vs = StepResult.step_number r /\
  ValidationStep.actual vs = or_else (Some (StepResult.output r)) "No data" /\
  (StepResult.status r = "completed" ->
   ValidationStep.status vs = "passed" /\
   ValidationStep.match_score vs = 1.0%float) /\
  (StepResult.status r <> "completed" ->
   ValidationStep.status vs = "failed" /\
   ValidationStep.match_score vs = 0.16%float).


(** ** The views of the component *)

(** The three marks of the stage list of the dashboard: U+2705 (done),
    U+1F535 (in progress) and U+26AA (not reached). *)
Inductive StageMark := MarkDone | MarkActive | MarkIdle.

(** The [num] fields of [STAGES]. *)
Definition STAGES : list nat := [1; 2; 3; 4; 5; 6; 7; 8].

(** [pipeline.stage > s.num ? done
     : pipeline.stage === s.num && pipeline.status === 'running' ? active
     : idle] *)
Definition stageMark (p : PipelineState.t) (num : nat) : StageMark :=
  if num <? PipelineState.stage p then MarkDone
  else if (PipelineState.stage p =? num) &&
          match PipelineState.status p with running => true | _ => false end
       then MarkActive
       else MarkIdle.

Module HealthStatus.
Record t := mk {
  status : string;
  version : string;
  environment : string }.
End HealthStatus.

(** What one [fetch(`${API_URL}/health`)] of [checkHealth] comes to: a
    response with [res.ok] and its JSON body, a response that is not
    ok, or a rejected promise (of [fetch] or of [res.json()]). *)
Inductive FetchResult :=
| FetchOk (data : HealthStatus.t)
| FetchNotOk
| FetchRejected.

(** The state variables [health] and [healthError]. *)
Record HealthState := mkHealthState {
  health : option HealthStatus.t;
  healthError : bool }.

Definition initialHealth : HealthState :=
  {| health := None; healthError := false |}.

(** The state updates of one call of [checkHealth]. *)
Definition checkHealth (r : FetchResult) (s : HealthState) : HealthState :=
  match r with
  | FetchOk data => {| health := Some data; healthError := false |}
  | FetchNotOk => {| health := health s; healthError := true |}
  | FetchRejected => {| health := health s; healthError := true |}
  end.

(** The calls of [checkHealth] at mount and at every interval tick, in
    the order in which they complete. *)
Definition pollHealth (rs : list FetchResult) (s : HealthState) : HealthState :=
  fold_left (fun s r => checkHealth r s) rs s.

(** The label next to the status dot of the header. *)
Definition healthLabel (s : HealthState) : string :=
  match health s with
  | Some h => ("API v" ++ HealthStatus.version h)%string
  | None => if healthError s then "API Offline" else "Connecting..."
  end.

(** The colour of the status dot of the header. *)
Definition healthColor (s : HealthState) : string :=
  match health s with
  | Some _ => "#22c55e"
  | None => if healthError s then "#ef4444" else "#eab308"
  end.

(** [s.includes(sub)] *)
Fixpoint includes (s sub : string) : bool :=
  match s with
  | EmptyString => String.prefix sub EmptyString
  | String _ r => String.prefix sub s || includes r sub
  end.

(** The text colour of one line of the log panel. *)
Definition logColor (log : string) : string :=
  if includes log "failed" || includes log "Failed" then "#f87171"
  else if includes log "complete" || includes log "passed"
          || includes log "success" then "#4ade80"
  else "#94a3b8".

(** Eight lower-case hexadecimal digits. *)
Definition is_hex8 (h : string) : Prop :=
  String.length h = 8 /\
  Forall (fun c => In c hexChars) (list_ascii_of_string h).

(** ** Symbolic execution of a run *)

Ltac run_steps :=
  cbv beta iota zeta delta
    [runPipeline runPipelineWith pipelineStart pipelineStages pipelineFailed
     try_catch mbind mret setPipeline setActiveTab addLog delay liftRand
     callGen pureGen rret
     genAnalysis genSOP genExecution genValidation mockGenerators
     pipeline logs activeTab rng clock snapshots fst snd].

Ltac run_steps_in H :=
  cbv beta iota zeta delta
    [runPipeline runPipelineWith pipelineStart pipelineStages pipelineFailed
     try_catch mbind mret setPipeline setActiveTab addLog delay liftRand
     callGen pureGen rret
     genAnalysis genSOP genExecution genValidation mockGenerators
     pipeline logs activeTab rng clock snapshots fst snd] in H.

Ltac state_fields :=
  cbv beta iota zeta delta
    [with_stage with_status with_videoId with_analysis with_systems with_sop
     with_execution with_validation
     PipelineState.stage PipelineState.status PipelineState.videoId
     PipelineState.analysis PipelineState.systems PipelineState.sop
     PipelineState.execution PipelineState.validation].

(** Case analysis on the results of the four generator calls of a run
    with generators [G] from world [w0]: one goal per generator that
    throws, and a last one for the run in which none does. *)
Ltac run_cases G w0 :=
  let p0 := fresh "p0" in let l0 := fresh "l0" in let t0 := fresh "t0" in
  let g0 := fresh "g0" in let c0 := fresh "c0" in let s0 := fresh "s0" in
  let gA := fresh "gA" in let gS := fresh "gS" in
  let gE := fresh "gE" in let gV := fresh "gV" in
  let hex := fresh "hex" in let g1 := fresh "g1" in
  let e := fresh "e" in let a := fresh "a" in let g2 := fresh "g2" in
  let so := fresh "so" in let g3 := fresh "g3" in
  let ex := fresh "ex" in let g4 := fresh "g4" in
  let v := fresh "v" in let g5 := fresh "g5" in
  let EA := fresh "EA" in let ES := fresh "ES" in
  let EE := fresh "EE" in let EV := fresh "EV" in
  destruct w0 as [p0 l0 t0 g0 c0 s0];
  destruct G as [gA gS gE gV];
  run_steps;
  destruct (randomHex 8 g0) as [hex g1]; run_steps;
  destruct (gA g1) as [[e|a] g2] eqn:EA; run_steps;
  [ | destruct (gS _ a g2) as [[e|so] g3] eqn:ES; run_steps;
      [ | destruct (gE so g3) as [[e|ex] g4] eqn:EE; run_steps;
          [ | destruct (gV so ex g4) as [[e|v] g5] eqn:EV; run_steps ] ] ].

(** ** Facts about the random-source monad *)

Lemma mapR_Forall2 {A B} (f : A -> Rand B) (l : list A) (g : RNG) :
  Forall2 (fun a b => exists g', b = fst (f a g')) l (fst (mapR f l g)).
Proof.
  revert g; induction l as [|a l IH]; intros g; simpl.
  - constructor.
  - unfold rbind. destruct (f a g) as [b g1] eqn:Ef.
    specialize (IH g1). destruct (mapR f l g1) as [bs g2]. simpl in *.
    constructor; [exists g; now rewrite Ef | exact IH].
Qed.

Lemma mapR_length {A B} (f : A -> Rand B) (l : list A) (g : RNG) :
  List.length (fst (mapR f l g)) = List.length l.
Proof.
  symmetry. eapply Forall2_length, mapR_Forall2.
Qed.

Lemma stepResultOf_step_number (s : SOPStep.t) (g : RNG) :
  StepResult.step_number (fst (stepResultOf s g)) = SOPStep.step_number s.
Proof. reflexivity. Qed.

Lemma stepResultOf_output (s : SOPStep.t) (g : RNG) :
  StepResult.output (fst (stepResultOf s g)) = SOPStep.expected_output s \/
  StepResult.output (fst (stepResultOf s g)) = "Element not found".
Proof.
  unfold stepResultOf, rbind, Math_random, rret; simpl.
  destruct (num_lt _ _); auto.
Qed.

Lemma stepResults_step_numbers (l : list SOPStep.t) (g : RNG) :
  map StepResult.step_number (fst (mapR stepResultOf l g)) =
  map SOPStep.step_number l.
Proof.
  pose proof (mapR_Forall2 stepResultOf l g) as H.
  induction H as [|a b l l' [g' Hb] _ IH]; simpl; [reflexivity|].
  now rewrite IH, Hb.
Qed.

Lemma generateMockExecution_step_results (sop : SOP.t) (g : RNG) :
  Execution.step_results (fst (generateMockExecution sop g)) =
  fst (mapR stepResultOf (SOP.steps sop) g).
Proof.
  unfold generateMockExecution, rbind.
  destruct (mapR stepResultOf (SOP.steps sop) g) as [rs g1].
  destruct (randomHex 8 g1) as [hex g2]. reflexivity.
Qed.

Lemma generateMockValidation_steps (sop : SOP.t) (ex : Execution.t) (g : RNG) :
  Validation.validation_steps (fst (generateMockValidation sop ex g)) =
  map (validationStepOf ex) (SOP.steps sop).
Proof.
  unfold generateMockValidation, rbind.
  destruct (randomHex 8 g) as [hex g1]. reflexivity.
Qed.

(** ** Facts about number comparison *)

Lemma SFcompare_antisym (x y : spec_float) :
  SFcompare y x = option_map CompOpp (SFcompare x y).
Proof.
  destruct x as [sx|sx| |sx mx ex], y as [sy|sy| |sy my ey]; simpl;
    try reflexivity;
    try (destruct sx; reflexivity); try (destruct sy; reflexivity);
    try (destruct sx, sy; reflexivity).
  destruct sx, sy; simpl; try reflexivity;
    rewrite (Z.compare_antisym ex ey); destruct (ex ?= ey)%Z; simpl;
      try reflexivity;
      change (Pos.compare_cont Eq my mx) with (my ?= mx)%positive;
      change (Pos.compare_cont Eq mx my) with (mx ?= my)%positive;
      rewrite (Pos.compare_antisym mx my);
      destruct (mx ?= my)%positive; reflexivity.
Qed.

Lemma SFcompare_nan (x y : spec_float) :
  SFcompare x y = None -> x = S754_nan \/ y = S754_nan.
Proof.
  destruct x as [sx|sx| |sx mx ex], y as [sy|sy| |sy my ey]; simpl;
    auto; discriminate.
Qed.

(** A number that is [>=] another one is not NaN. *)
Lemma num_ge_not_nan (r lo : number) :
  num_ge r lo = true -> Prim2SF r <> S754_nan.
Proof.
  unfold num_ge. rewrite leb_spec. unfold SFleb. intros H E.
  rewrite E in H. destruct (Prim2SF lo); discriminate.
Qed.

(** [r < c] excludes [r >= c]. *)
Lemma num_lt_not_ge (r c : number) :
  num_lt r c = true -> num_ge r c = false.
Proof.
  unfold num_lt, num_ge. rewrite ltb_spec, leb_spec. unfold SFltb, SFleb.
  rewrite (SFcompare_antisym (Prim2SF r) (Prim2SF c)).
  destruct (SFcompare (Prim2SF r) (Prim2SF c)) as [[]|]; simpl; congruence.
Qed.

(** Between two numbers that are not NaN, "not [>=]" is [<]. *)
Lemma num_not_ge_lt (r c : number) :
  Prim2SF r <> S754_nan -> Prim2SF c <> S754_nan ->
  num_ge r c = false -> num_lt r c = true.
Proof.
  unfold num_lt, num_ge. rewrite ltb_spec, leb_spec. unfold SFltb, SFleb.
  intros Hr Hc. rewrite (SFcompare_antisym (Prim2SF r) (Prim2SF c)).
  destruct (SFcompare (Prim2SF r) (Prim2SF c)) as [[]|] eqn:E; simpl;
    try congruence.
  apply SFcompare_nan in E. tauto.
Qed.

(** [r === c] excludes [r < c]. *)
Lemma num_eq_not_lt (r c : number) :
  num_eq r c = true -> num_lt r c = false.
Proof.
  unfold num_eq, num_lt. rewrite eqb_spec, ltb_spec. unfold SFeqb, SFltb.
  destruct (SFcompare (Prim2SF r) (Prim2SF c)) as [[]|]; congruence.
Qed.

Lemma Forall2_In_right {A B} (R : A -> B -> Prop) (l : list A) (l' : list B) :
  Forall2 R l l' -> forall b, In b l' -> exists a, In a l /\ R a b.
Proof.
  induction 1 as [|a b l l' Hab _ IH]; intros x Hx; [destruct Hx|].
  destruct Hx as [<- | Hx].
  - exists a. split; [now left | exact Hab].
  - destruct (IH x Hx) as (a' & Ha' & HR). exists a'. split; [now right | exact HR].
Qed.

Lemma sop_steps_are_mapped (videoId : string) (analysis : Analysis.t)
  (g : RNG) :
  SOP.steps (fst (generateMockSOP videoId analysis g)) =
  map sopStepOf (Analysis.workflow_steps analysis).
Proof.
  unfold generateMockSOP, rbind. destruct (randomHex 8 g). reflexivity.
Qed.

(** ** The SOP generator *)

(** C8 (counterexample): [systems_involved] is not derived from the
    workflow steps.  The steps of the mock analysis all name the system
    "SAP ERP", yet the SOP built from it lists three systems, among them
    "Microsoft Outlook", which no workflow step names. *)
Lemma systems_involved_not_observed :
  let sop := fst (generateMockSOP "video-88888888" generateMockAnalysis rng_half) in
  let observed := spec_systems_observed (Analysis.workflow_steps generateMockAnalysis) in
  observed = ["SAP ERP"] /\
  SOP.systems_involved sop = ["SAP ERP"; "Microsoft Outlook"; "Chrome Browser"] /\
  SOP.systems_involved sop <> observed /\
  In "Microsoft Outlook" (SOP.systems_involved sop) /\
  ~ In "Microsoft Outlook"
       (map WorkflowStep.system (Analysis.workflow_steps generateMockAnalysis)).
Proof.
  cbv zeta. split; [vm_compute; reflexivity|].
  split; [vm_compute; reflexivity|].
  split; [vm_compute; discriminate|].
  split; [vm_compute; auto|].
  vm_compute. intros H.
  repeat (destruct H as [H | H]; [discriminate H|]). exact H.
Qed.

(** C8 (amended): the SOP generator maps the workflow steps of the
    analysis to SOP steps one to one and in order: the SOP has as many
    steps as the analysis, and its k-th step has the step number, title,
    description, action type and expected output of the k-th workflow
    step and that step's system as [system_involved].  Its
    [systems_involved] is the fixed list "SAP ERP", "Microsoft Outlook",
    "Chrome Browser", whatever the workflow steps are. *)
Theorem generateMockSOP_steps
  (videoId : string) (analysis : Analysis.t) (g : RNG) :
  let sop := fst (generateMockSOP videoId analysis g) in
  List.length (SOP.steps sop) = List.length (Analysis.workflow_steps analysis) /\
  (forall k,
     match nth_error (Analysis.workflow_steps analysis) k with
     | Some ws =>
         exists s,
           nth_error (SOP.steps sop) k = Some s /\
           SOPStep.step_number s = WorkflowStep.step_number ws /\
           SOPStep.title s = WorkflowStep.title ws /\
           SOPStep.description s = WorkflowStep.description ws /\
           SOPStep.action_type s = WorkflowStep.action_type ws /\
           SOPStep.expected_output s = WorkflowStep.expected_output ws /\
           SOPStep.system_involved s = WorkflowStep.system ws
     | None => nth_error (SOP.steps sop) k = None
     end) /\
  SOP.systems_involved sop = ["SAP ERP"; "Microsoft Outlook"; "Chrome Browser"].
Proof.
  cbv zeta. rewrite sop_steps_are_mapped.
  split; [apply length_map|]. split.
  - intros k. rewrite nth_error_map.
    destruct (nth_error (Analysis.workflow_steps analysis) k) as [ws|];
      [|reflexivity].
    exists (sopStepOf ws). repeat split.
  - unfold generateMockSOP, rbind. destruct (randomHex 8 g). reflexivity.
Qed.

(** ** The execution generator *)

(** C1 (the code departs from the claim): [generateMockExecution] draws
    one random number for [status] and another one for [output], so the
    two fields are decided independently.  On the SOP of the pipeline,
    when the first two draws are 0.5 and 0.95 the first step result is
    'completed' with output "Element not found", and when they are 0.95
    and 0.5 it is 'failed' with the step's expected output. *)
Theorem generateMockExecution_status_output_independent :
  (exists r,
     nth_error (Execution.step_results
                  (fst (generateMockExecution mockSOP (rng_high_at [1])))) 0
       = Some r /\
     StepResult.status r = "completed" /\
     StepResult.output r = "Element not found") /\
  (exists r,
     nth_error (Execution.step_results
                  (fst (generateMockExecution mockSOP (rng_high_at [0])))) 0
       = Some r /\
     StepResult.status r = "failed" /\
     StepResult.output r = "SAP dashboard loaded" /\
     option_map SOPStep.expected_output (nth_error (SOP.steps mockSOP) 0)
       = Some "SAP dashboard loaded").
Proof.
  split; eexists; repeat split; vm_compute; reflexivity.
Qed.

(** C7 (counterexample): the success rate is a binary64 quotient, not
    the rational one.  With four of the five steps of the pipeline's SOP
    completed its exact value is 7205759403792794 / 2^53, which differs
    from 4/5; and for a SOP without steps it is NaN, which has no
    rational value. *)
Lemma success_rate_not_rational :
  (let e := fst (generateMockExecution mockSOP (rng_high_at [0])) in
   Execution.passed_steps e = 4 /\ Execution.total_steps e = 5 /\
   number_to_Q (Execution.success_rate e) =
     Some (7205759403792794 # 9007199254740992)%Q /\
   ~ (7205759403792794 # 9007199254740992 == 4 # 5)%Q) /\
  (let e := fst (generateMockExecution emptySOP rng_half) in
   Execution.passed_steps e = 0 /\ Execution.total_steps e = 0 /\
   number_to_Q (Execution.success_rate e) = None).
Proof.
  split.
  - cbv zeta. split; [vm_compute; reflexivity|].
    split; [vm_compute; reflexivity|].
    split; [vm_compute; reflexivity|].
    intros H. vm_compute in H. discriminate H.
  - cbv zeta. repeat split; vm_compute; reflexivity.
Qed.

(** C7 (amended): in every execution summary, [success_rate] is the
    binary64 quotient of [passed_steps] by [total_steps]; [passed_steps]
    counts the step results with status 'completed' and [total_steps]
    counts all of them, one per SOP step; and [status] is 'completed'
    exactly when the two counters agree, and 'partial' otherwise. *)
Theorem generateMockExecution_summary (sop : SOP.t) (g : RNG) :
  let e := fst (generateMockExecution sop g) in
  Execution.success_rate e =
    num_div (of_length (Execution.passed_steps e))
            (of_length (Execution.total_steps e)) /\
  Execution.passed_steps e =
    List.length (filter is_completed (Execution.step_results e)) /\
  Execution.total_steps e = List.length (Execution.step_results e) /\
  Execution.total_steps e = List.length (SOP.steps sop) /\
  (Execution.status e = "completed" <->
   Execution.passed_steps e = Execution.total_steps e) /\
  (Execution.passed_steps e <> Execution.total_steps e ->
   Execution.status e = "partial").
Proof.
  cbv zeta. unfold generateMockExecution, rbind.
  pose proof (mapR_length stepResultOf (SOP.steps sop) g) as Hlen.
  destruct (mapR stepResultOf (SOP.steps sop) g) as [rs g1].
  destruct (randomHex 8 g1) as [hex g2]. simpl in *.
  repeat split; auto.
  - destruct (Nat.eqb_spec (List.length (filter is_completed rs))
                           (List.length rs)); [auto | discriminate].
  - intros E. now rewrite E, Nat.eqb_refl.
  - intros N. apply Nat.eqb_neq in N. now rewrite N.
Qed.

(** ** The validation generator *)

Lemma validationStepOf_match_score (ex : Execution.t) (s : SOPStep.t) :
  ValidationStep.match_score (validationStepOf ex s) =
  if completed_opt (execStepFor ex (SOPStep.step_number s))
  then 1.0%float else 0.16%float.
Proof. reflexivity. Qed.

Lemma validationStepOf_status (ex : Execution.t) (s : SOPStep.t) :
  ValidationStep.status (validationStepOf ex s) =
  if completed_opt (execStepFor ex (SOPStep.step_number s))
  then "passed" else "failed".
Proof.
  unfold validationStepOf, execStepFor, completed_opt. simpl.
  destruct (find _ _) as [e|]; [destruct (String.eqb _ _)|]; reflexivity.
Qed.

(** C2: every validation step has match score 1.0 when the execution
    step result found for its step number is 'completed' and 0.16
    otherwise; its status follows the thresholds 0.8 and 0.5; and it is
    never 'partial'. *)
Theorem validation_step_score_and_status
  (sop : SOP.t) (execution : Execution.t) (g : RNG) (v : ValidationStep.t) :
  In v (Validation.validation_steps
          (fst (generateMockValidation sop execution g))) ->
  let e := execStepFor execution (ValidationStep.step_number v) in
  let m := ValidationStep.match_score v in
  (completed_opt e = true -> m = 1.0%float) /\
  (completed_opt e = false -> m = 0.16%float) /\
  (num_ge m 0.8%float = true -> ValidationStep.status v = "passed") /\
  (num_ge m 0.5%float = true -> num_lt m 0.8%float = true ->
   ValidationStep.status v = "partial") /\
  (num_lt m 0.5%float = true -> ValidationStep.status v = "failed") /\
  ValidationStep.status v <> "partial".
Proof.
  rewrite generateMockValidation_steps, in_map_iff.
  intros [s [<- _]]. cbv zeta.
  rewrite validationStepOf_match_score, validationStepOf_status.
  change (ValidationStep.step_number (validationStepOf execution s))
    with (SOPStep.step_number s).
  destruct (completed_opt (execStepFor execution (SOPStep.step_number s)));
    repeat split; intros; try reflexivity; try discriminate.
Qed.

(** The second step of the pipeline's SOP, when its status draw fails:
    score 0.16 and status 'failed'. *)
Lemma validation_step_score_and_status_witness :
  let execution := fst (generateMockExecution mockSOP (rng_high_at [2])) in
  let v := validationStepOf execution
             {| SOPStep.step_number := 2%float;
                SOPStep.title := "Enter Authentication Credentials";
                SOPStep.description :=
                  "User enters username and password into SAP login form";
                SOPStep.system_involved := "SAP ERP";
                SOPStep.action_type := "input";
                SOPStep.expected_output :=
                  "Authentication successful, main menu displayed" |} in
  In v (Validation.validation_steps
          (fst (generateMockValidation mockSOP execution rng_half))) /\
  ValidationStep.match_score v = 0.16%float /\
  ValidationStep.status v = "failed".
Proof.
  cbv zeta.
  set (execution := fst (generateMockExecution mockSOP (rng_high_at [2]))).
  set (v := validationStepOf execution _).
  assert (Hin : In v (Validation.validation_steps
                        (fst (generateMockValidation mockSOP execution rng_half))))
    by (vm_compute; auto).
  split; [exact Hin|].
  destruct (validation_step_score_and_status mockSOP execution rng_half v Hin)
    as (_ & H2 & _ & _ & H5 & _).
  split; [apply H2 | apply H5]; vm_compute; reflexivity.
Defined.

(** C6: in every validation report the overall status is 'passed'
    exactly when the pass rate is at least 0.95, 'partial' exactly when
    it is at least 0.5 and below 0.95, and 'failed' in all other cases;
    the pass rate is the quotient of the number of 'passed' validation
    steps by their total; and [recommendations] is a one-element list,
    the review message whenever the rate is below 1 and the all-passed
    message when the rate equals 1. *)
Theorem generateMockValidation_overall
  (sop : SOP.t) (execution : Execution.t) (g : RNG) :
  let v := fst (generateMockValidation sop execution g) in
  let rate := Validation.success_rate v in
  rate = num_div (of_length (Validation.passed_steps v))
                 (of_length (Validation.total_steps v)) /\
  Validation.passed_steps v =
    List.length (filter is_passed (Validation.validation_steps v)) /\
  Validation.total_steps v = List.length (Validation.validation_steps v) /\
  (Validation.overall_status v = "passed" <-> num_ge rate 0.95%float = true) /\
  (Validation.overall_status v = "partial" <->
   num_ge rate 0.5%float = true /\ num_lt rate 0.95%float = true) /\
  (Validation.overall_status v = "failed" <->
   num_ge rate 0.95%float = false /\
   ~ (num_ge rate 0.5%float = true /\ num_lt rate 0.95%float = true)) /\
  Validation.recommendations v <> [] /\
  (num_lt rate 1%float = true ->
   Validation.recommendations v = [reviewMessage]) /\
  (num_eq rate 1%float = true ->
   Validation.recommendations v = [allPassedMessage]).
Proof.
  cbv zeta. unfold generateMockValidation, rbind.
  destruct (randomHex 8 g) as [hex g1]. simpl.
  set (rate := num_div _ _).
  assert (Hc : Prim2SF 0.95%float <> S754_nan) by (vm_compute; discriminate).
  assert (Hlt : forall lo, num_ge rate lo = true ->
                 num_ge rate 0.95%float = false ->
                 num_lt rate 0.95%float = true).
  { intros lo Hlo H95. apply num_not_ge_lt; auto.
    eapply num_ge_not_nan; eauto. }
  split; [reflexivity|]. split; [reflexivity|]. split; [reflexivity|].
  split; [|split; [|split; [|split; [|split]]]].
  - split.
    + destruct (num_ge rate 0.95%float); [reflexivity|].
      destruct (num_ge rate 0.5%float); discriminate.
    + intros ->. reflexivity.
  - split.
    + destruct (num_ge rate 0.95%float) eqn:E95; [discriminate|].
      destruct (num_ge rate 0.5%float) eqn:E5; [|discriminate].
      intros _. split; [reflexivity|]. eapply Hlt; eauto.
    + intros [H5 H95]. apply num_lt_not_ge in H95. now rewrite H95, H5.
  - split.
    + destruct (num_ge rate 0.95%float) eqn:E95; [discriminate|].
      destruct (num_ge rate 0.5%float) eqn:E5; [discriminate|].
      intros _. split; [reflexivity|]. intros [H _]. discriminate H.
    + intros [H95 Hn]. rewrite H95.
      destruct (num_ge rate 0.5%float) eqn:E5; [|reflexivity].
      exfalso. apply Hn. split; [reflexivity|]. eapply Hlt; eauto.
  - destruct (num_lt rate 1%float); discriminate.
  - intros ->. reflexivity.
  - intros H. apply num_eq_not_lt in H. now rewrite H.
Qed.

(** The three concrete cases of the overall status: with five steps,
    5 passed give 'passed', 3 passed give 'partial', 1 passed gives
    'failed'. *)
Example overall_status_concrete_cases :
  let report hi :=
    fst (generateMockValidation mockSOP
           (fst (generateMockExecution mockSOP (rng_high_at hi))) rng_half) in
  (Validation.passed_steps (report []) = 5 /\
   Validation.overall_status (report []) = "passed" /\
   Validation.recommendations (report []) = [allPassedMessage]) /\
  (Validation.passed_steps (report [0; 2]) = 3 /\
   Validation.overall_status (report [0; 2]) = "partial" /\
   Validation.recommendations (report [0; 2]) = [reviewMessage]) /\
  (Validation.passed_steps (report [0; 2; 4; 6]) = 1 /\
   Validation.overall_status (report [0; 2; 4; 6]) = "failed").
Proof. cbv zeta. repeat split; vm_compute; reflexivity. Qed.

(** C10 (counterexample): a SOP step whose expected output is the empty
    string yields an execution step result with the same step number
    and an empty output, and the validation step then takes the
    fallback: its [actual] is "No data", not the output of the
    execution step. *)
Lemma no_data_fallback_reached :
  let execution := fst (generateMockExecution blankOutputSOP rng_half) in
  let validation :=
    fst (generateMockValidation blankOutputSOP execution rng_half) in
  exists e v,
    Execution.step_results execution = [e] /\
    Validation.validation_steps validation = [v] /\
    StepResult.step_number e = ValidationStep.step_number v /\
    execStepFor execution (ValidationStep.step_number v) = Some e /\
    StepResult.output e = "" /\
    ValidationStep.actual v = "No data" /\
    ValidationStep.actual v <> StepResult.output e.
Proof.
  cbv zeta. do 2 eexists.
  split; [vm_compute; reflexivity|].
  split; [vm_compute; reflexivity|].
  repeat split; try (vm_compute; reflexivity).
  vm_compute. discriminate.
Qed.

(** C10 (amended): for every SOP whose steps have a non-empty expected
    output and a step number that is not NaN, and for every random
    outcome, the execution generator produces one step result per SOP
    step with the same step numbers in the same order, and every
    validation step finds an execution step result for its step number,
    takes that result's output as [actual], and that output is not
    empty, so the "No data" fallback is not taken. *)
Theorem validation_actual_is_execution_output (sop : SOP.t) (g g' : RNG) :
  (forall s, In s (SOP.steps sop) -> SOPStep.expected_output s <> "") ->
  (forall s, In s (SOP.steps sop) ->
             num_eq (SOPStep.step_number s) (SOPStep.step_number s) = true) ->
  let execution := fst (generateMockExecution sop g) in
  let validation := fst (generateMockValidation sop execution g') in
  map StepResult.step_number (Execution.step_results execution) =
    map SOPStep.step_number (SOP.steps sop) /\
  forall v, In v (Validation.validation_steps validation) ->
    exists e,
      execStepFor execution (ValidationStep.step_number v) = Some e /\
      In e (Execution.step_results execution) /\
      num_eq (StepResult.step_number e) (ValidationStep.step_number v) = true /\
      ValidationStep.actual v = StepResult.output e /\
      StepResult.output e <> "".
Proof.
  intros Hout Hnum. cbv zeta.
  rewrite generateMockValidation_steps.
  assert (Hnums := stepResults_step_numbers (SOP.steps sop) g).
  assert (Hall := mapR_Forall2 stepResultOf (SOP.steps sop) g).
  rewrite <- generateMockExecution_step_results in Hnums, Hall.
  set (execution := fst (generateMockExecution sop g)) in *.
  split; [exact Hnums|].
  assert (Hne : forall e, In e (Execution.step_results execution) ->
                          StepResult.output e <> "").
  { intros e He.
    destruct (Forall2_In_right _ _ _ Hall e He) as (s & Hs & g1 & ->).
    destruct (stepResultOf_output s g1) as [-> | ->];
      [now apply Hout | discriminate]. }
  intros v Hv. apply in_map_iff in Hv. destruct Hv as (s & <- & Hs).
  unfold validationStepOf at 1 3; simpl. unfold execStepFor.
  destruct (find _ _) as [e|] eqn:Ef.
  - apply find_some in Ef. destruct Ef as [He Heq].
    exists e. repeat split; auto.
    simpl. destruct (String.eqb_spec (StepResult.output e) ""); [|reflexivity].
    now apply Hne in He.
  - exfalso.
    assert (Hin : In (SOPStep.step_number s)
                     (map StepResult.step_number
                          (Execution.step_results execution))).
    { rewrite Hnums. now apply in_map. }
    apply in_map_iff in Hin. destruct Hin as (e & Hen & He).
    pose proof (find_none _ _ Ef e He) as Hf. simpl in Hf.
    rewrite Hen, (Hnum s Hs) in Hf. discriminate.
Qed.

(** The SOP of the pipeline meets both conditions. *)
Lemma validation_actual_is_execution_output_witness :
  (forall s, In s (SOP.steps mockSOP) -> SOPStep.expected_output s <> "") /\
  (forall s, In s (SOP.steps mockSOP) ->
             num_eq (SOPStep.step_number s) (SOPStep.step_number s) = true) /\
  map StepResult.step_number
      (Execution.step_results
         (fst (generateMockExecution mockSOP (rng_high_at [3])))) =
    map SOPStep.step_number (SOP.steps mockSOP).
Proof.
  assert (H1 : forall s, In s (SOP.steps mockSOP) ->
                         SOPStep.expected_output s <> "").
  { intros s Hs. vm_compute in Hs.
    repeat (destruct Hs as [<- | Hs]; [discriminate|]). destruct Hs. }
  assert (H2 : forall s, In s (SOP.steps mockSOP) ->
             num_eq (SOPStep.step_number s) (SOPStep.step_number s) = true).
  { intros s Hs. vm_compute in Hs.
    repeat (destruct Hs as [<- | Hs]; [reflexivity|]). destruct Hs. }
  split; [exact H1|]. split; [exact H2|].
  exact (proj1 (validation_actual_is_execution_output mockSOP
                  (rng_high_at [3]) rng_half H1 H2)).
Defined.

(** ** The pipeline state machine *)

(** C4 (counterexample): an execution-generator throw does not leave
    [validation] absent on a second run.  After a first run from the
    initial state has completed, a run in which the execution generator
    throws ends 'failed' at stage 7 while the execution and the
    validation of the first run are still in the state. *)
Lemma rerun_throw_keeps_validation :
  let w1 := snd (runPipeline "adk" "demo.mp4"
                   (initialWorld rng_half clock_noon)) in
  let r := pipelineStages throwingExecution "adk"
             (snd (pipelineStart "demo.mp4" w1)) in
  let w2 := snd (runPipelineWith throwingExecution "adk" "demo.mp4" w1) in
  fst r = inl "Error: element detached" /\
  PipelineState.status (pipeline w2) = failed /\
  PipelineState.stage (pipeline w2) = 7 /\
  PipelineState.validation (pipeline w2) <> None /\
  PipelineState.validation (pipeline w2) =
    PipelineState.validation (pipeline w1) /\
  PipelineState.execution (pipeline w2) <> None /\
  PipelineState.execution (pipeline w2) =
    PipelineState.execution (pipeline w1).
Proof.
  cbv zeta.
  split; [vm_compute; reflexivity|].
  split; [vm_compute; reflexivity|].
  split; [vm_compute; reflexivity|].
  split; [vm_compute; discriminate|].
  split; [vm_compute; reflexivity|].
  split; [vm_compute; discriminate|].
  vm_compute; reflexivity.
Qed.

(** C4 (amended): when a stage generator throws, [runPipeline] itself
    returns normally, the run ends with status 'failed', one failure
    entry that carries the error is appended to the log, and the stage
    stays at the value it had when the generator threw.  That stage is
    the one of the throwing generator (2 analysis, 4 SOP, 7 execution,
    8 validation), and the artifact of that stage and of every later
    stage is what it was before the run: nothing is recorded for them,
    and nothing is cleared.  So [validation] stays absent if it was
    absent before the run, and it stays present if an earlier run had
    left one. *)
Theorem runPipeline_generator_throw
  (G : Generators) (framework fileName : string) (w0 w1 : World) (err : Exn) :
  pipelineStages G framework (snd (pipelineStart fileName w0)) = (inl err, w1) ->
  let w' := snd (runPipelineWith G framework fileName w0) in
  let before := pipeline w0 in
  let after := pipeline w' in
  fst (runPipelineWith G framework fileName w0) = inr tt /\
  PipelineState.status after = failed /\
  logs w' = logs w1 ++ [("[" ++ clock w1 0 ++ "] Pipeline failed: " ++ err)%string] /\
  PipelineState.stage after = PipelineState.stage (pipeline w1) /\
  ((PipelineState.stage after = 2 /\
    (exists g g', genAnalysis G g = (inl err, g')) /\
    PipelineState.analysis after = PipelineState.analysis before /\
    PipelineState.systems after = PipelineState.systems before /\
    PipelineState.sop after = PipelineState.sop before /\
    PipelineState.execution after = PipelineState.execution before) \/
   (PipelineState.stage after = 4 /\
    (exists v a g g', genSOP G v a g = (inl err, g')) /\
    PipelineState.sop after = PipelineState.sop before /\
    PipelineState.execution after = PipelineState.execution before) \/
   (PipelineState.stage after = 7 /\
    (exists s g g', genExecution G s g = (inl err, g')) /\
    PipelineState.execution after = PipelineState.execution before) \/
   (PipelineState.stage after = 8 /\
    (exists s e g g', genValidation G s e g = (inl err, g')))) /\
  PipelineState.validation after = PipelineState.validation before /\
  (PipelineState.validation before = None ->
   PipelineState.validation after = None).
Proof.
  intros H. cbv zeta.
  assert (Hval : forall x y : option Validation.t, x = y -> x = y /\ (y = None -> x = None))
    by (intros x y ->; auto).
  revert H. run_cases G w0; intros H;
    (first [discriminate H | injection H as -> <-]);
    (split; [reflexivity|]); (split; [reflexivity|]);
    (split; [reflexivity|]); (split; [reflexivity|]);
    (split; [|apply Hval; reflexivity]).
  - left. repeat split; eauto.
  - right; left. repeat split; eauto.
  - right; right; left. repeat split; eauto.
  - right; right; right. repeat split; eauto.
Qed.

(** A first run in which the execution generator throws: it ends
    'failed' at stage 7 without a validation. *)
Lemma runPipeline_generator_throw_witness :
  let w0 := initialWorld rng_half clock_noon in
  let r := pipelineStages throwingExecution "adk"
             (snd (pipelineStart "demo.mp4" w0)) in
  let w' := snd (runPipelineWith throwingExecution "adk" "demo.mp4" w0) in
  r = (inl "Error: element detached", snd r) /\
  PipelineState.stage (pipeline (snd r)) = 7 /\
  PipelineState.status (pipeline w') = failed /\
  PipelineState.stage (pipeline w') = 7 /\
  PipelineState.validation (pipeline w') = None.
Proof.
  cbv zeta.
  set (w0 := initialWorld rng_half clock_noon).
  set (r := pipelineStages throwingExecution "adk"
              (snd (pipelineStart "demo.mp4" w0))).
  assert (Hr : r = (inl "Error: element detached", snd r))
    by (vm_compute; reflexivity).
  assert (H7 : PipelineState.stage (pipeline (snd r)) = 7)
    by (vm_compute; reflexivity).
  destruct (runPipeline_generator_throw throwingExecution "adk" "demo.mp4"
              w0 (snd r) "Error: element detached" Hr)
    as (_ & Hst & _ & Hstage & _ & _ & Hval).
  split; [exact Hr|].
  split; [exact H7|].
  split; [exact Hst|].
  split; [exact (eq_trans Hstage H7)|].
  exact (Hval eq_refl).
Defined.

Lemma generateMockExecution_total_steps (sop : SOP.t) (g : RNG) :
  Execution.total_steps (fst (generateMockExecution sop g)) =
  List.length (SOP.steps sop).
Proof.
  unfold generateMockExecution, rbind.
  pose proof (mapR_length stepResultOf (SOP.steps sop) g) as Hlen.
  destruct (mapR stepResultOf (SOP.steps sop) g) as [rs g1].
  destruct (randomHex 8 g1). exact Hlen.
Qed.

Lemma generateMockValidation_total_steps
  (sop : SOP.t) (ex : Execution.t) (g : RNG) :
  Validation.total_steps (fst (generateMockValidation sop ex g)) =
  List.length (SOP.steps sop).
Proof.
  unfold generateMockValidation, rbind. destruct (randomHex 8 g).
  simpl. apply length_map.
Qed.

(** C3: every run of [runPipeline] returns normally with status
    'completed'; its final state has stage 8 and holds all five
    artifacts, and their counters agree: the number of systems found is
    the length of the detected systems, the SOP has as many steps as the
    analysis has workflow steps, the execution counts the SOP steps, and
    the validation counts as many steps as the execution. *)
Theorem runPipeline_completed_consistent
  (framework fileName : string) (w0 : World) :
  let p := pipeline (snd (runPipeline framework fileName w0)) in
  fst (runPipeline framework fileName w0) = inr tt /\
  PipelineState.status p = completed /\
  PipelineState.stage p = 8 /\
  exists a sy so ex v,
    PipelineState.analysis p = Some a /\
    PipelineState.systems p = Some sy /\
    PipelineState.sop p = Some so /\
    PipelineState.execution p = Some ex /\
    PipelineState.validation p = Some v /\
    Systems.total_systems_found sy = List.length (Systems.detected_systems sy) /\
    List.length (SOP.steps so) = List.length (Analysis.workflow_steps a) /\
    Execution.total_steps ex = List.length (SOP.steps so) /\
    Validation.total_steps v = Execution.total_steps ex.
Proof.
  cbv zeta. destruct w0 as [p0 l0 t0 g0 c0 s0]. run_steps.
  destruct (randomHex 8 g0) as [hex g1]. run_steps.
  destruct (generateMockSOP _ generateMockAnalysis g1) as [so g2] eqn:ES.
  run_steps.
  destruct (generateMockExecution so g2) as [ex g3] eqn:EE. run_steps.
  destruct (generateMockValidation so ex g3) as [v g4] eqn:EV. run_steps.
  state_fields.
  split; [reflexivity|]. split; [reflexivity|]. split; [reflexivity|].
  exists generateMockAnalysis, (systemsOf generateMockAnalysis), so, ex, v.
  repeat (split; [reflexivity|]).
  assert (Hso : so = fst (generateMockSOP ("video-" ++ hex)%string
                                          generateMockAnalysis g1))
    by now rewrite ES.
  assert (Hex : ex = fst (generateMockExecution so g2)) by now rewrite EE.
  assert (Hv : v = fst (generateMockValidation so ex g3)) by now rewrite EV.
  split; [|split].
  - rewrite Hso, sop_steps_are_mapped. apply length_map.
  - rewrite Hex. apply generateMockExecution_total_steps.
  - rewrite Hv, generateMockValidation_total_steps, Hex.
    symmetry. apply generateMockExecution_total_steps.
Qed.

Lemma stage_artifact_ok_spec (p : PipelineState.t) :
  stage_artifact_ok p = true ->
  forall n, In n artifact_stages ->
    (has_artifact n p = true -> n <= PipelineState.stage p) /\
    (n < PipelineState.stage p -> has_artifact n p = true).
Proof.
  unfold stage_artifact_ok. rewrite forallb_forall. intros H n Hn.
  specialize (H n Hn). apply andb_true_iff in H. destruct H as [H1 H2].
  split.
  - intros Hp. rewrite Hp in H1. simpl in H1. now apply Nat.leb_le.
  - intros Hlt. apply Nat.ltb_lt in Hlt. rewrite Hlt in H2. exact H2.
Qed.

Lemma stage_monotone_spec (l : list PipelineState.t) :
  stage_monotone l = true ->
  forall i j p q, i <= j -> nth_error l i = Some p -> nth_error l j = Some q ->
    PipelineState.stage p <= PipelineState.stage q.
Proof.
  induction l as [|a l IH]; intros H i j p q Hij Hp Hq.
  - destruct i; discriminate.
  - assert (Htl : stage_monotone l = true).
    { destruct l as [|b l]; [reflexivity|].
      simpl in H. apply andb_true_iff in H. tauto. }
    assert (Hhd : forall k r, nth_error l k = Some r ->
                    PipelineState.stage a <= PipelineState.stage r).
    { intros k. induction k as [|k IHk]; intros r Hr.
      - destruct l as [|b l]; [discriminate|]. simpl in Hr.
        injection Hr as <-. simpl in H. apply andb_true_iff in H.
        apply Nat.leb_le. tauto.
      - assert (Hk : k < List.length l).
        { apply Nat.lt_succ_l. apply nth_error_Some. congruence. }
        apply nth_error_Some in Hk.
        destruct (nth_error l k) as [r'|] eqn:Er; [|congruence].
        specialize (IHk r' eq_refl).
        specialize (IH Htl k (S k) r' r (Nat.le_succ_diag_r k) Er Hr).
        lia. }
    destruct i as [|i], j as [|j]; simpl in Hp, Hq.
    + injection Hp as <-. injection Hq as <-. lia.
    + injection Hp as <-. exact (Hhd j q Hq).
    + lia.
    + apply (IH Htl i j p q); [lia | exact Hp | exact Hq].
Qed.

(** C5 (counterexample): a second invocation does not start afresh, and
    the stage counter runs ahead of the artifact.  After a first run
    from the initial state, the first state of a second run has stage 1
    and status 'running' while the validation of the first run is still
    there; and in the first run the state that follows the transition
    to stage 2 has no analysis yet. *)
Lemma rerun_keeps_artifacts :
  let w1 := snd (runPipeline "adk" "demo.mp4"
                   (initialWorld rng_half clock_noon)) in
  let w2 := snd (runPipeline "adk" "demo.mp4" w1) in
  (exists p,
     nth_error (snapshots w2) (List.length (snapshots w1)) = Some p /\
     PipelineState.stage p = 1 /\ PipelineState.status p = running /\
     has_artifact 8 p = true /\
     PipelineState.validation p = PipelineState.validation (pipeline w1)) /\
  (exists p,
     nth_error (snapshots w1) 2 = Some p /\
     PipelineState.stage p = 2 /\ PipelineState.status p = running /\
     has_artifact 2 p = false).
Proof.
  cbv zeta. split; eexists; (split; [vm_compute; reflexivity|]);
    repeat split; vm_compute; reflexivity.
Qed.

Lemma recorded_after_stage_spec (p : PipelineState.t) :
  recorded_after_stage p = true ->
  forall n, In n artifact_stages -> n < PipelineState.stage p ->
            has_artifact n p = true.
Proof.
  unfold recorded_after_stage. rewrite forallb_forall. intros H n Hn Hlt.
  specialize (H n Hn). apply Nat.ltb_lt in Hlt. now rewrite Hlt in H.
Qed.

Lemma entered_without_artifact_spec (l : list PipelineState.t) :
  entered_without_artifact l = true ->
  forall i p q, nth_error l i = Some p -> nth_error l (S i) = Some q ->
    PipelineState.stage p < PipelineState.stage q ->
    has_artifact (PipelineState.stage q) q = false.
Proof.
  induction l as [|a l IH]; intros H i p q Hp Hq Hlt.
  - destruct i; discriminate.
  - destruct l as [|b l]; [destruct i; discriminate|].
    cbn [entered_without_artifact] in H. apply andb_true_iff in H.
    destruct H as [Hab Hrest].
    destruct i as [|i].
    + cbn [nth_error] in Hp, Hq. injection Hp as <-. injection Hq as <-.
      apply Nat.ltb_lt in Hlt. rewrite Hlt in Hab.
      now apply negb_true_iff.
    + apply (IH Hrest i p q); assumption.
Qed.

(** C5 (amended): [runPipeline] does not clear the artifacts; it starts
    from the state it finds.  From every start state and whichever
    generator throws: the first state of the run is the state found
    with status 'running' and stage 1, its artifacts untouched; along
    the states of the run the stage never decreases; in each of them the
    artifact of stage N (analysis 2, systems 3, SOP 4, execution 7,
    validation 8) is present whenever stage > N; the last of them is
    the final state, which holds all five artifacts when its status is
    'completed'.  For a run that starts from a state without artifacts,
    such as the initial state, in addition: the first state has no
    artifact, an artifact of stage N is present only if stage >= N, and
    at every update that raises the stage to N the artifact of N is
    still absent. *)
Theorem runPipeline_stage_artifact_invariant
  (G : Generators) (framework fileName : string) (w0 : World) :
  let w' := snd (runPipelineWith G framework fileName w0) in
  exists first rest,
    snapshots w' = (snapshots w0 ++ first :: rest)%list /\
    first = with_stage 1 (with_status running (pipeline w0)) /\
    PipelineState.stage first = 1 /\
    PipelineState.status first = running /\
    (forall i j p q, i <= j ->
       nth_error (first :: rest) i = Some p ->
       nth_error (first :: rest) j = Some q ->
       PipelineState.stage p <= PipelineState.stage q) /\
    (forall p n, In p (first :: rest) -> In n artifact_stages ->
       n < PipelineState.stage p -> has_artifact n p = true) /\
    last (first :: rest) first = pipeline w' /\
    (PipelineState.status (pipeline w') = completed ->
     forall n, In n artifact_stages -> has_artifact n (pipeline w') = true) /\
    (no_artifacts (pipeline w0) ->
     no_artifacts first /\
     (forall p n, In p (first :: rest) -> In n artifact_stages ->
        has_artifact n p = true -> n <= PipelineState.stage p) /\
     (forall i p q,
        nth_error (first :: rest) i = Some p ->
        nth_error (first :: rest) (S i) = Some q ->
        PipelineState.stage p < PipelineState.stage q ->
        has_artifact (PipelineState.stage q) q = false)).
Proof.
  cbv zeta.
  assert (Hrec : forall l : list PipelineState.t,
            forallb recorded_after_stage l = true ->
            forall p n, In p l -> In n artifact_stages ->
              n < PipelineState.stage p -> has_artifact n p = true).
  { intros l Ha p n Hp Hn. rewrite forallb_forall in Ha.
    now apply recorded_after_stage_spec; [apply Ha|]. }
  assert (Honly : forall l : list PipelineState.t,
            forallb stage_artifact_ok l = true ->
            forall p n, In p l -> In n artifact_stages ->
              has_artifact n p = true -> n <= PipelineState.stage p).
  { intros l Ha p n Hp Hn. rewrite forallb_forall in Ha.
    now apply stage_artifact_ok_spec; [apply Ha|]. }
  run_cases G w0;
    destruct p0 as [st0 sts0 vid0 an0 sy0 so0 ex0 va0];
    state_fields;
    rewrite <- ?app_assoc; cbn [app];
    do 2 eexists; (split; [reflexivity|]);
    state_fields;
    (split; [reflexivity|]); (split; [reflexivity|]);
    (split; [reflexivity|]);
    (split; [apply stage_monotone_spec; reflexivity|]);
    (split; [apply Hrec; reflexivity|]);
    (split; [reflexivity|]);
    (split;
     [intros Hc; first
        [ discriminate Hc
        | intros n Hn; cbv [artifact_stages In] in Hn;
          repeat (destruct Hn as [<- | Hn]; [reflexivity|]); destruct Hn ]
     |]);
    unfold no_artifacts; state_fields;
    intros (-> & -> & -> & -> & ->);
    (split; [repeat split; reflexivity|]);
    (split; [apply Honly; reflexivity
            | apply entered_without_artifact_spec; reflexivity]).
Qed.

(** The initial state has no artifacts; a run from it in which the
    execution generator throws starts without artifacts and never
    holds one ahead of its stage. *)
Lemma runPipeline_stage_artifact_invariant_witness :
  let w0 := initialWorld rng_half clock_noon in
  no_artifacts (pipeline w0) /\
  exists first rest,
    snapshots (snd (runPipelineWith throwingExecution "adk" "demo.mp4" w0)) =
      first :: rest /\
    PipelineState.stage first = 1 /\ no_artifacts first /\
    (forall p n, In p (first :: rest) -> In n artifact_stages ->
       has_artifact n p = true -> n <= PipelineState.stage p).
Proof.
  cbv zeta.
  assert (H : no_artifacts (pipeline (initialWorld rng_half clock_noon)))
    by (repeat split).
  split; [exact H|].
  destruct (runPipeline_stage_artifact_invariant throwingExecution "adk"
              "demo.mp4" (initialWorld rng_half clock_noon))
    as (first & rest & Hs & _ & H1 & _ & _ & _ & _ & _ & Hfresh).
  destruct (Hfresh H) as (Hno & Honly & _).
  exists first, rest. split; [exact Hs|]. split; [exact H1|].
  split; [exact Hno | exact Honly].
Defined.

(** C9 (counterexample): [runPipeline] rejects nothing.  Called with an
    empty name from the initial state it runs to completion, writes the
    pipeline state and appends log entries, the second of which is the
    stage-1 entry; and a file selected while the status is 'running'
    starts a run as well. *)
Lemma runPipeline_has_no_guard :
  (let w0 := initialWorld rng_half clock_noon in
   let w' := snd (runPipeline "adk" "" w0) in
   PipelineState.status (pipeline w') = completed /\
   pipeline w' <> pipeline w0 /\
   List.length (logs w0) = 0 /\ List.length (logs w') = 18 /\
   nth_error (logs w') 0 = Some "[12:00:00 PM] Starting pipeline for: " /\
   nth_error (logs w') 1 = Some "[12:00:00 PM] Stage 1: Uploading video...") /\
  (let w0 := snd (pipelineStart "first.mp4" (initialWorld rng_half clock_noon)) in
   let w' := snd (handleFileSelect "adk" (Some [File.mk "second.mp4"]) w0) in
   PipelineState.status (pipeline w0) = running /\
   List.length (logs w0) = 1 /\ List.length (logs w') = 19 /\
   nth_error (logs w') 1 =
     Some "[12:00:00 PM] Starting pipeline for: second.mp4").
Proof.
  cbv zeta. split.
  - split; [vm_compute; reflexivity|]. split.
    + intros H. apply (f_equal PipelineState.stage) in H.
      vm_compute in H. discriminate H.
    + repeat split; vm_compute; reflexivity.
  - repeat split; vm_compute; reflexivity.
Qed.

(** C9 (amended): the guards are at the triggers, not in [runPipeline].
    [handleFileSelect] with no file list or with an empty one, and a
    click on the demo button while the status is 'running', return
    without executing any stage: the pipeline state, the log stream and
    the rest of the component state are left unchanged. *)
Theorem rejected_invocations_leave_state (framework : string) (w : World) :
  handleFileSelect framework None w = (inr tt, w) /\
  handleFileSelect framework (Some []) w = (inr tt, w) /\
  (PipelineState.status (pipeline w) = running ->
   clickRunDemo framework w = (inr tt, w)).
Proof.
  split; [reflexivity|]. split; [reflexivity|].
  intros H. unfold clickRunDemo. now rewrite H.
Qed.

(** A click on the demo button right after a run has started. *)
Lemma rejected_invocations_leave_state_witness :
  let w := snd (pipelineStart "first.mp4" (initialWorld rng_half clock_noon)) in
  PipelineState.status (pipeline w) = running /\
  clickRunDemo "adk" w = (inr tt, w).
Proof.
  cbv zeta.
  assert (H : PipelineState.status
                (pipeline (snd (pipelineStart "first.mp4"
                                  (initialWorld rng_half clock_noon)))) = running)
    by reflexivity.
  split; [exact H|].
  exact (proj2 (proj2 (rejected_invocations_leave_state "adk" _)) H).
Defined.

(** ** Further properties of the generators *)

Lemma floor16_le (x : number) : floor16 x <= 15.
Proof.
  unfold floor16.
  etransitivity; [apply filter_length_le|]. now rewrite length_seq.
Qed.

Lemma hexDigit_char (d : nat) :
  d <= 15 -> exists c, hexDigit d = String c EmptyString /\ In c hexChars.
Proof.
  intros H.
  do 16 (destruct d as [|d];
         [eexists; split; [reflexivity | simpl; tauto]|]).
  lia.
Qed.

Lemma randomHex_core (len : nat) (g : RNG) :
  String.length (fst (randomHex len g)) = len /\
  Forall (fun c => In c hexChars) (list_ascii_of_string (fst (randomHex len g))) /\
  forall n, snd (randomHex len g) n = g (len + n).
Proof.
  revert g. induction len as [|len IH]; intros g.
  - repeat split. constructor.
  - simpl. unfold rbind, Math_random.
    specialize (IH (fun n => g (S n))).
    destruct (randomHex len (fun n => g (S n))) as [rest g'].
    simpl in *. destruct IH as (Hl & Hc & Hg).
    destruct (hexDigit_char _ (floor16_le (num_mul (g 0) 16%float)))
      as (c & -> & Hin).
    simpl. repeat split.
    + now rewrite Hl.
    + constructor; assumption.
    + intros n. rewrite Hg. reflexivity.
Qed.

(** X1: for a random source within the contract of [Math.random()],
    [randomHex(len)] returns a string of exactly [len] characters, all
    of them lower-case hexadecimal digits, and it consumes exactly [len]
    random numbers. *)
Theorem randomHex_shape (len : nat) (g : RNG) :
  in_unit_interval g ->
  String.length (fst (randomHex len g)) = len /\
  Forall (fun c => In c hexChars) (list_ascii_of_string (fst (randomHex len g))) /\
  forall n, snd (randomHex len g) n = g (len + n).
Proof.
  intros _. destruct (randomHex_core len g) as (Hl & Hc & Hg).
  split; [exact Hl|]. split; [exact Hc | exact Hg].
Qed.

(** The random source that always returns 0.5 is within the contract;
    eight draws give eight characters. *)
Lemma randomHex_shape_witness :
  in_unit_interval rng_half /\
  String.length (fst (randomHex 8 rng_half)) = 8.
Proof.
  assert (H : in_unit_interval rng_half) by (intros n; split; reflexivity).
  split; [exact H|].
  exact (proj1 (randomHex_shape 8 rng_half H)).
Defined.

Lemma mapR_stepResultOf_nth (l : list SOPStep.t) (g : RNG) (k : nat) :
  nth_error (fst (mapR stepResultOf l g)) k =
  option_map
    (fun s =>
       {| StepResult.step_number := SOPStep.step_number s;
          StepResult.title := SOPStep.title s;
          StepResult.status :=
            if num_lt (g (2 * k)) 0.92%float then "completed" else "failed";
          StepResult.output :=
            if num_lt (g (2 * k + 1)) 0.92%float
            then SOPStep.expected_output s else "Element not found" |})
    (nth_error l k).
Proof.
  revert g k. induction l as [|s l IH]; intros g k.
  - destruct k; reflexivity.
  - destruct k as [|k].
    + simpl. unfold rbind at 1. unfold stepResultOf at 1.
      unfold rbind, Math_random, rret.
      destruct (mapR stepResultOf l _) as [rs g']. reflexivity.
    + replace (2 * S k) with (S (S (2 * k))) by lia.
      specialize (IH (fun n => g (S (S n))) k).
      cbn [mapR]. unfold rbind at 1. unfold stepResultOf at 1.
      unfold rbind at 1 2. unfold Math_random, rret.
      cbv beta iota. unfold rbind at 1.
      destruct (mapR stepResultOf l (fun n => g (S (S n)))) as [rs g'].
      cbn [fst snd nth_error] in *. exact IH.
Qed.

Lemma mapR_stepResultOf_rng (l : list SOPStep.t) (g : RNG) (n : nat) :
  snd (mapR stepResultOf l g) n = g (2 * List.length l + n).
Proof.
  revert g. induction l as [|s l IH]; intros g; [reflexivity|].
  simpl. unfold rbind at 1. unfold stepResultOf at 1.
  unfold rbind, Math_random, rret.
  specialize (IH (fun n => g (S (S n)))).
  destruct (mapR stepResultOf l (fun n => g (S (S n)))) as [rs g'].
  simpl in *. rewrite IH. f_equal. lia.
Qed.

(** X2: the random numbers decide the step results position by
    position.  The k-th step result (from 0) carries the step number and
    title of the k-th SOP step; its status is 'completed' exactly when
    draw 2k of the random source is below 0.92 and 'failed' otherwise;
    its output is the step's expected output exactly when draw 2k+1 is
    below 0.92 and "Element not found" otherwise.  Beyond the last SOP
    step there is no step result, and the generator consumes two draws
    per step and eight for the identifier. *)
Theorem generateMockExecution_draws (sop : SOP.t) (g : RNG) :
  let ex := fst (generateMockExecution sop g) in
  (forall k,
     match nth_error (SOP.steps sop) k with
     | Some s =>
         exists r,
           nth_error (Execution.step_results ex) k = Some r /\
           StepResult.step_number r = SOPStep.step_number s /\
           StepResult.title r = SOPStep.title s /\
           StepResult.status r =
             (if num_lt (g (2 * k)) 0.92%float then "completed" else "failed") /\
           StepResult.output r =
             (if num_lt (g (2 * k + 1)) 0.92%float
              then SOPStep.expected_output s else "Element not found")
     | None => nth_error (Execution.step_results ex) k = None
     end) /\
  forall n,
    snd (generateMockExecution sop g) n =
    g (2 * List.length (SOP.steps sop) + 8 + n).
Proof.
  cbv zeta. split.
  - intros k. rewrite generateMockExecution_step_results.
    rewrite mapR_stepResultOf_nth.
    destruct (nth_error (SOP.steps sop) k) as [s|]; [|reflexivity].
    eexists. split; [reflexivity|]. repeat split.
  - intros n. unfold generateMockExecution, rbind.
    pose proof (mapR_stepResultOf_rng (SOP.steps sop) g) as Hg.
    destruct (mapR stepResultOf (SOP.steps sop) g) as [rs g1].
    simpl in Hg.
    assert (H8 : forall m, snd (randomHex 8 g1) m = g1 (8 + m))
      by reflexivity.
    destruct (randomHex 8 g1) as [hex g2]. simpl in *.
    rewrite H8, Hg. f_equal. lia.
Qed.

Lemma filter_length_all {A} (f : A -> bool) (l : list A) :
  List.length (filter f l) = List.length l <-> Forall (fun x => f x = true) l.
Proof.
  induction l as [|a l IH]; simpl.
  - split; [constructor | reflexivity].
  - pose proof (filter_length_le f l) as Hle.
    destruct (f a) eqn:E; simpl.
    + split.
      * intros H. constructor; [exact E|]. apply IH. lia.
      * intros H. inversion H; subst. f_equal. now apply IH.
    + split; [lia|]. intros H. inversion H; congruence.
Qed.

(** X3: the counters of an execution summary are consistent with its
    step results: [passed_steps] never exceeds [total_steps], and the
    summary is 'completed' exactly when every step result is
    'completed' (so also when there is none). *)
Theorem generateMockExecution_status_all (sop : SOP.t) (g : RNG) :
  let ex := fst (generateMockExecution sop g) in
  Execution.passed_steps ex <= Execution.total_steps ex /\
  (Execution.status ex = "completed" <->
   Forall (fun r => StepResult.status r = "completed")
          (Execution.step_results ex)).
Proof.
  cbv zeta. unfold generateMockExecution, rbind.
  destruct (mapR stepResultOf (SOP.steps sop) g) as [rs g1].
  destruct (randomHex 8 g1) as [hex g2]. simpl.
  split; [apply filter_length_le|].
  assert (Hall : Forall (fun r => is_completed r = true) rs <->
                 Forall (fun r => StepResult.status r = "completed") rs).
  { split; intros H; eapply Forall_impl; try exact H;
      intros r Hr; unfold is_completed in *; now apply String.eqb_eq. }
  rewrite <- Hall, <- filter_length_all.
  destruct (Nat.eqb_spec (List.length (filter is_completed rs))
                         (List.length rs)) as [E|N];
    split; intros H; try reflexivity; try assumption;
    try discriminate; try contradiction.
Qed.

(** X4: for a SOP without steps the execution generator reports
    'completed' with no step results, both counters 0 and a success
    rate that is NaN (0 / 0). *)
Theorem generateMockExecution_no_steps (sop : SOP.t) (g : RNG) :
  SOP.steps sop = [] ->
  let ex := fst (generateMockExecution sop g) in
  Execution.step_results ex = [] /\
  Execution.passed_steps ex = 0 /\ Execution.total_steps ex = 0 /\
  Execution.status ex = "completed" /\
  PrimFloat.is_nan (Execution.success_rate ex) = true.
Proof.
  intros H. cbv zeta. unfold generateMockExecution, rbind. rewrite H.
  simpl mapR. unfold rret at 1.
  destruct (randomHex 8 g) as [hex g2]. simpl.
  repeat split; reflexivity.
Qed.

Lemma generateMockExecution_no_steps_witness :
  SOP.steps emptySOP = [] /\
  Execution.status (fst (generateMockExecution emptySOP rng_half)) = "completed".
Proof.
  split; [reflexivity|].
  exact (proj1 (proj2 (proj2 (proj2
    (generateMockExecution_no_steps emptySOP rng_half eq_refl))))).
Defined.

(** The quotient of zero by any number is never at or above a positive
    threshold: it is zero or NaN. *)
Lemma zero_div_below (x : number) :
  num_ge (num_div (of_length 0) x) 0.95%float = false /\
  num_ge (num_div (of_length 0) x) 0.5%float = false.
Proof.
  unfold num_ge, num_div. rewrite !leb_spec, div_spec.
  replace (Prim2SF (of_length 0)) with (S754_zero false)
    by (vm_compute; reflexivity).
  destruct (Prim2SF x) as [s|s| |s m e]; try destruct s;
    split; vm_compute; reflexivity.
Qed.

(** X5: for a SOP without steps the validation generator returns a
    report with no validation steps and both counters 0 whose overall
    status is 'failed' (the rate is NaN, which is below no threshold)
    while its only recommendation is the all-passed message (NaN is not
    below 1 either). *)
Theorem generateMockValidation_no_steps
  (sop : SOP.t) (execution : Execution.t) (g : RNG) :
  SOP.steps sop = [] ->
  let v := fst (generateMockValidation sop execution g) in
  Validation.validation_steps v = [] /\
  Validation.passed_steps v = 0 /\ Validation.total_steps v = 0 /\
  PrimFloat.is_nan (Validation.success_rate v) = true /\
  Validation.overall_status v = "failed" /\
  Validation.recommendations v = [allPassedMessage].
Proof.
  intros H. cbv zeta. unfold generateMockValidation, rbind. rewrite H.
  destruct (randomHex 8 g) as [hex g1]. simpl.
  repeat split; reflexivity.
Qed.

Lemma generateMockValidation_no_steps_witness :
  SOP.steps emptySOP = [] /\
  Validation.overall_status
    (fst (generateMockValidation emptySOP executionWithoutResults rng_half))
    = "failed".
Proof.
  split; [reflexivity|].
  exact (proj1 (proj2 (proj2 (proj2 (proj2
    (generateMockValidation_no_steps emptySOP executionWithoutResults
       rng_half eq_refl)))))).
Defined.

(** X6: the validation steps mirror the SOP steps one to one and in
    order, whatever the execution summary is: same step numbers, same
    titles, and [expected] is the step's expected output; [total_steps]
    is the number of SOP steps and [passed_steps] never exceeds it. *)
Theorem generateMockValidation_mirrors_sop
  (sop : SOP.t) (execution : Execution.t) (g : RNG) :
  let v := fst (generateMockValidation sop execution g) in
  map ValidationStep.step_number (Validation.validation_steps v) =
    map SOPStep.step_number (SOP.steps sop) /\
  map ValidationStep.title (Validation.validation_steps v) =
    map SOPStep.title (SOP.steps sop) /\
  map ValidationStep.expected (Validation.validation_steps v) =
    map SOPStep.expected_output (SOP.steps sop) /\
  Validation.total_steps v = List.length (SOP.steps sop) /\
  Validation.passed_steps v <= Validation.total_steps v.
Proof.
  cbv zeta. unfold generateMockValidation, rbind.
  destruct (randomHex 8 g) as [hex g1]. simpl.
  rewrite !map_map. repeat split; try reflexivity.
  - apply length_map.
  - apply filter_length_le.
Qed.

(** X7: the missing cross-reference.  When no execution step result is
    found for the step number of any SOP step (the summary has no step
    results, or a step number is NaN), the generator does not fail:
    every validation step gets score 0.16, status 'failed' and the
    actual value "No data", no step counts as passed, and the overall
    status is 'failed'. *)
Theorem generateMockValidation_missing_results
  (sop : SOP.t) (execution : Execution.t) (g : RNG) :
  (forall s, In s (SOP.steps sop) ->
             execStepFor execution (SOPStep.step_number s) = None) ->
  let v := fst (generateMockValidation sop execution g) in
  (forall vs, In vs (Validation.validation_steps v) ->
     ValidationStep.match_score vs = 0.16%float /\
     ValidationStep.status vs = "failed" /\
     ValidationStep.actual vs = "No data") /\
  Validation.passed_steps v = 0 /\
  Validation.overall_status v = "failed".
Proof.
  intros Hnone. cbv zeta.
  assert (Hstep : forall s, In s (SOP.steps sop) ->
            validationStepOf execution s =
            {| ValidationStep.step_number := SOPStep.step_number s;
               ValidationStep.title := SOPStep.title s;
               ValidationStep.status := "failed";
               ValidationStep.match_score := 0.16%float;
               ValidationStep.expected := SOPStep.expected_output s;
               ValidationStep.actual := "No data" |}).
  { intros s Hs. specialize (Hnone s Hs). unfold execStepFor in Hnone.
    unfold validationStepOf. rewrite Hnone. reflexivity. }
  assert (Hpassed : filter is_passed
                      (map (validationStepOf execution) (SOP.steps sop)) = []).
  { induction (SOP.steps sop) as [|s l IH]; [reflexivity|].
    simpl. rewrite (Hstep s (or_introl eq_refl)). simpl.
    apply IH; intros; [apply Hnone | apply Hstep]; now right. }
  unfold generateMockValidation, rbind.
  destruct (randomHex 8 g) as [hex g1]. simpl.
  rewrite Hpassed. simpl.
  split; [|split; [reflexivity|]].
  - intros vs Hvs. apply in_map_iff in Hvs. destruct Hvs as (s & <- & Hs).
    rewrite (Hstep s Hs). repeat split.
  - destruct (zero_div_below
                (of_length (List.length
                   (map (validationStepOf execution) (SOP.steps sop)))))
      as [H95 H5].
    change (of_length 0) with (of_length (@List.length ValidationStep.t [])) in H95, H5.
    simpl in H95, H5. now rewrite H95, H5.
Qed.

Lemma generateMockValidation_missing_results_witness :
  (forall s, In s (SOP.steps mockSOP) ->
             execStepFor executionWithoutResults (SOPStep.step_number s) = None) /\
  Validation.overall_status
    (fst (generateMockValidation mockSOP executionWithoutResults rng_half))
    = "failed".
Proof.
  assert (H : forall s, In s (SOP.steps mockSOP) ->
            execStepFor executionWithoutResults (SOPStep.step_number s) = None)
    by (intros s _; reflexivity).
  split; [exact H|].
  exact (proj2 (proj2
    (generateMockValidation_missing_results mockSOP executionWithoutResults
       rng_half H))).
Defined.

Lemma find_after_prefix
  (l : list SOPStep.t) (rs pre : list StepResult.t) :
  Forall2 (fun s r => StepResult.step_number r = SOPStep.step_number s) l rs ->
  distinct_numbers (map SOPStep.step_number l) = true ->
  (forall e s, In e pre -> In s l ->
     num_eq (StepResult.step_number e) (SOPStep.step_number s) = false) ->
  Forall2
    (fun s r =>
       find (fun e => num_eq (StepResult.step_number e) (SOPStep.step_number s))
            (pre ++ rs) = Some r)
    l rs.
Proof.
  intros H. revert pre.
  induction H as [|s r l rs Hsr _ IH]; intros pre Hd Hpre; [constructor|].
  simpl in Hd. apply andb_true_iff in Hd. destruct Hd as [Hd Hrest].
  apply andb_true_iff in Hd. destruct Hd as [Hself Hothers].
  rewrite forallb_forall in Hothers.
  constructor.
  - clear IH. induction pre as [|e pre IHp]; simpl.
    + now rewrite Hsr, Hself.
    + rewrite (Hpre e s (or_introl eq_refl) (or_introl eq_refl)).
      apply IHp. intros e' s' He' Hs'. apply Hpre; [now right | exact Hs'].
  - replace (pre ++ r :: rs) with ((pre ++ [r]) ++ rs)
      by (rewrite <- app_assoc; reflexivity).
    apply IH; [exact Hrest|].
    intros e s' He Hs'. apply in_app_or in He. destruct He as [He | [<- | []]].
    + apply Hpre; [exact He | now right].
    + rewrite Hsr. apply negb_true_iff. apply Hothers.
      now apply in_map.
Qed.

Lemma validationStepOf_found
  (ex : Execution.t) (l : list SOPStep.t) (rs : list StepResult.t) :
  Forall2 (fun s r => StepResult.step_number r = SOPStep.step_number s) l rs ->
  Forall2
    (fun s r =>
       find (fun e => num_eq (StepResult.step_number e) (SOPStep.step_number s))
            (Execution.step_results ex) = Some r)
    l rs ->
  Forall2 validates rs (map (validationStepOf ex) l).
Proof.
  intros Hnum. induction Hnum as [|s r l rs Hsr _ IH]; intros Hfind.
  - constructor.
  - inversion Hfind as [|s1 r1 l1 rs1 Hf Hf']; subst.
    simpl. constructor; [|now apply IH].
    unfold validates, validationStepOf. rewrite Hf. simpl.
    split; [now rewrite Hsr|]. split; [reflexivity|].
    split.
    + intros ->. split; reflexivity.
    + intros Hn. apply String.eqb_neq in Hn. rewrite Hn.
      split; reflexivity.
Qed.

Lemma validates_counts (rs : list StepResult.t) (vss : list ValidationStep.t) :
  Forall2 validates rs vss ->
  List.length (filter is_passed vss) = List.length (filter is_completed rs).
Proof.
  induction 1 as [|r vs rs vss (_ & _ & Hc & Hn) _ IH]; [reflexivity|].
  simpl. unfold is_completed at 1, is_passed at 1.
  destruct (String.eqb_spec (StepResult.status r) "completed") as [E|E].
  - destruct (Hc E) as [Hs _]. rewrite Hs. simpl. now rewrite IH.
  - destruct (Hn E) as [Hs _]. rewrite Hs. simpl. exact IH.
Qed.

Lemma generateMockExecution_fields (sop : SOP.t) (g : RNG) :
  let ex := fst (generateMockExecution sop g) in
  Execution.passed_steps ex =
    List.length (filter is_completed (Execution.step_results ex)) /\
  Execution.total_steps ex = List.length (Execution.step_results ex) /\
  Execution.success_rate ex =
    num_div (of_length (Execution.passed_steps ex))
            (of_length (Execution.total_steps ex)).
Proof.
  cbv zeta. unfold generateMockExecution, rbind.
  destruct (mapR stepResultOf (SOP.steps sop) g) as [rs g1].
  destruct (randomHex 8 g1) as [hex g2]. repeat split.
Qed.

Lemma validation_of_execution_core (sop : SOP.t) (g g' : RNG) :
  distinct_numbers (map SOPStep.step_number (SOP.steps sop)) = true ->
  let ex := fst (generateMockExecution sop g) in
  let v := fst (generateMockValidation sop ex g') in
  Forall2 validates (Execution.step_results ex) (Validation.validation_steps v) /\
  Validation.passed_steps v = Execution.passed_steps ex /\
  Validation.total_steps v = Execution.total_steps ex /\
  Validation.success_rate v = Execution.success_rate ex.
Proof.
  intros Hd. cbv zeta.
  assert (Hnum : Forall2 (fun s r => StepResult.step_number r = SOPStep.step_number s)
                         (SOP.steps sop)
                         (fst (mapR stepResultOf (SOP.steps sop) g))).
  { eapply Forall2_impl; [|apply mapR_Forall2].
    intros s r [g1 ->]. reflexivity. }
  pose proof (find_after_prefix _ _ [] Hnum Hd
                ltac:(intros e s []) ) as Hfind.
  simpl in Hfind.
  rewrite <- generateMockExecution_step_results in Hfind, Hnum.
  set (ex := fst (generateMockExecution sop g)) in *.
  pose proof (validationStepOf_found ex _ _ Hnum Hfind) as Hpair.
  pose proof (validates_counts _ _ Hpair) as Hcount.
  assert (Hlen : List.length (map (validationStepOf ex) (SOP.steps sop)) =
                 List.length (Execution.step_results ex)).
  { symmetry. eapply Forall2_length. exact Hpair. }
  destruct (generateMockExecution_fields sop g) as (Hpassed & Htotal & Hrate).
  fold ex in Hrate, Hpassed, Htotal.
  unfold generateMockValidation, rbind.
  destruct (randomHex 8 g') as [hex g1]. simpl.
  split; [exact Hpair|].
  rewrite Hrate, Hpassed, Htotal, Hcount, Hlen. repeat split.
Qed.

(** X8: execution followed by validation.  For every SOP whose step
    numbers are pairwise different and not NaN, and for every random
    outcome, the validation of the generated execution pairs the k-th
    validation step with the k-th execution step result: the step is
    'passed' with score 1.0 when the result is 'completed' and 'failed'
    with score 0.16 otherwise, whatever the result's output is.  Hence
    the two summaries agree on [passed_steps], [total_steps] and
    [success_rate]. *)
Theorem validation_of_execution_agrees (sop : SOP.t) (g g' : RNG) :
  distinct_numbers (map SOPStep.step_number (SOP.steps sop)) = true ->
  let ex := fst (generateMockExecution sop g) in
  let v := fst (generateMockValidation sop ex g') in
  Forall2 validates (Execution.step_results ex) (Validation.validation_steps v) /\
  Validation.passed_steps v = Execution.passed_steps ex /\
  Validation.total_steps v = Execution.total_steps ex /\
  Validation.success_rate v = Execution.success_rate ex.
Proof.
  intros Hd. cbv zeta.
  destruct (validation_of_execution_core sop g g' Hd)
    as (Hpair & Hpassed & Htotal & Hrate).
  split; [exact Hpair|]. split; [exact Hpassed|].
  split; [exact Htotal | exact Hrate].
Qed.

Lemma validation_of_execution_agrees_witness :
  distinct_numbers (map SOPStep.step_number (SOP.steps mockSOP)) = true /\
  Validation.passed_steps
    (fst (generateMockValidation mockSOP
            (fst (generateMockExecution mockSOP (rng_high_at [0; 4])))
            rng_half)) =
  Execution.passed_steps
    (fst (generateMockExecution mockSOP (rng_high_at [0; 4]))).
Proof.
  assert (H : distinct_numbers
                (map SOPStep.step_number (SOP.steps mockSOP)) = true)
    by (vm_compute; reflexivity).
  split; [exact H|].
  exact (proj1 (proj2
    (validation_of_execution_agrees mockSOP (rng_high_at [0; 4]) rng_half H))).
Defined.

(** ** Further properties of the pipeline run *)

(** The final state of a run with the source's generators, written out:
    every field is computed from the random source alone. *)
Lemma runPipeline_final_state (framework fileName : string) (w0 : World) :
  let g := rng w0 in
  let videoId := ("video-" ++ fst (randomHex 8 g))%string in
  let sop := fst (generateMockSOP videoId generateMockAnalysis
                    (fun n => g (8 + n))) in
  let ex := fst (generateMockExecution sop (fun n => g (16 + n))) in
  let v := fst (generateMockValidation sop ex (fun n => g (34 + n))) in
  pipeline (snd (runPipeline framework fileName w0)) =
    PipelineState.mk 8 completed (Some videoId) (Some generateMockAnalysis)
      (Some (systemsOf generateMockAnalysis)) (Some sop) (Some ex) (Some v) /\
  rng (snd (runPipeline framework fileName w0)) = (fun n => g (42 + n)).
Proof.
  destruct w0 as [p0 l0 t0 g0 c0 s0]. cbv zeta.
  split; reflexivity.
Qed.



Lemma mock_steps_distinct (videoId : string) (g : RNG) :
  distinct_numbers
    (map SOPStep.step_number
         (SOP.steps (fst (generateMockSOP videoId generateMockAnalysis g)))) = true.
Proof. rewrite sop_steps_are_mapped. vm_compute. reflexivity. Qed.

(** The overall status of a report over five steps, by the number of
    passed steps. *)
Lemma overall_of_five (passed : nat) :
  passed <= 5 ->
  let rate := num_div (of_length passed) (of_length 5) in
  (num_ge rate 0.95%float = true <-> passed = 5) /\
  (num_lt rate 1%float = false <-> passed = 5) /\
  (passed = 5 -> rate = 1%float).
Proof.
  intros H. cbv zeta.
  do 6 (destruct passed as [|passed];
        [vm_compute; repeat split; intros; try reflexivity;
         try discriminate; try lia|]).
  lia.
Qed.

(** X10: the outcome of a run, read off the random source.  In every
    run, step k (k = 0..4) of the execution is 'completed' exactly when
    draw 16 + 2k of the random source is below 0.92 (draws 0..15 make up
    the video and SOP identifiers); the validation counts the same
    passed steps and has the same success rate as the execution; its
    overall status is 'passed' exactly when the execution is
    'completed', that is when all five of these draws are below 0.92,
    and then the success rate is 1 and the only recommendation is the
    all-passed message; and the run consumes 42 random numbers. *)
Theorem runPipeline_outcome_by_draws
  (framework fileName : string) (w0 : World) :
  let g := rng w0 in
  let w' := snd (runPipeline framework fileName w0) in
  exists ex v,
    PipelineState.execution (pipeline w') = Some ex /\
    PipelineState.validation (pipeline w') = Some v /\
    (forall k, k < 5 ->
       exists r, nth_error (Execution.step_results ex) k = Some r /\
                 (StepResult.status r = "completed" <->
                  num_lt (g (16 + 2 * k)) 0.92%float = true)) /\
    Validation.passed_steps v = Execution.passed_steps ex /\
    Validation.success_rate v = Execution.success_rate ex /\
    (Validation.overall_status v = "passed" <->
     Execution.status ex = "completed") /\
    (Execution.status ex = "completed" <->
     forall k, k < 5 -> num_lt (g (16 + 2 * k)) 0.92%float = true) /\
    (Execution.status ex = "completed" ->
     Execution.passed_steps ex = 5 /\
     Execution.success_rate ex = 1%float /\
     Validation.recommendations v = [allPassedMessage]) /\
    forall n, rng w' n = g (42 + n).
Proof.
  cbv zeta.
  destruct (runPipeline_final_state framework fileName w0) as [Hp Hg].
  cbv zeta in Hp, Hg. rewrite Hp, Hg. clear Hp Hg.
  set (g := rng w0).
  set (sop := fst (generateMockSOP _ generateMockAnalysis _)).
  set (ex := fst (generateMockExecution sop _)).
  set (v := fst (generateMockValidation sop ex _)).
  exists ex, v. split; [reflexivity|]. split; [reflexivity|].
  assert (Hsteps : SOP.steps sop = map sopStepOf mockWorkflowSteps)
    by apply sop_steps_are_mapped.
  assert (Hd : distinct_numbers (map SOPStep.step_number (SOP.steps sop)) = true)
    by apply mock_steps_distinct.
  destruct (validation_of_execution_core sop (fun n => g (16 + n))
              (fun n => g (34 + n)) Hd) as (_ & Hpassed & Htotal & Hrate).
  fold ex in Hpassed, Htotal, Hrate. fold v in Hpassed, Htotal, Hrate.
  destruct (generateMockExecution_fields sop (fun n => g (16 + n)))
    as (Hcount & Hlen & Herate).
  fold ex in Hcount, Hlen, Herate.
  assert (Hnth : forall k,
            nth_error (Execution.step_results ex) k =
            option_map
              (fun s =>
                 {| StepResult.step_number := SOPStep.step_number s;
                    StepResult.title := SOPStep.title s;
                    StepResult.status :=
                      if num_lt (g (16 + 2 * k)) 0.92%float
                      then "completed" else "failed";
                    StepResult.output :=
                      if num_lt (g (16 + (2 * k + 1))) 0.92%float
                      then SOPStep.expected_output s
                      else "Element not found" |})
              (nth_error (SOP.steps sop) k)).
  { intros k. unfold ex. rewrite generateMockExecution_step_results.
    apply mapR_stepResultOf_nth. }
  assert (Hstat : forall k, k < 5 ->
            exists r, nth_error (Execution.step_results ex) k = Some r /\
                      (StepResult.status r = "completed" <->
                       num_lt (g (16 + 2 * k)) 0.92%float = true)).
  { intros k Hk. rewrite Hnth, Hsteps.
    do 5 (destruct k as [|k];
          [eexists; split; [reflexivity|]; simpl;
           destruct (num_lt _ _); split; intros; try reflexivity;
           discriminate|]).
    lia. }
  assert (Htot5 : Execution.total_steps ex = 5).
  { unfold ex. rewrite generateMockExecution_total_steps, Hsteps. reflexivity. }
  assert (Hle : Execution.passed_steps ex <= 5).
  { rewrite Hcount, <- Htot5, Hlen. apply filter_length_le. }
  assert (Hcompleted : Execution.status ex = "completed" <->
                       Execution.passed_steps ex = 5).
  { rewrite <- Htot5. unfold ex, generateMockExecution, rbind.
    destruct (mapR stepResultOf (SOP.steps sop) _) as [rs g1].
    destruct (randomHex 8 g1) as [hex g2]. simpl.
    destruct (Nat.eqb_spec (List.length (filter is_completed rs))
                           (List.length rs)) as [E|N];
      split; intros H; try reflexivity; try assumption;
      try discriminate; try contradiction. }
  assert (Hall : Execution.passed_steps ex = 5 <->
                 forall k, k < 5 -> num_lt (g (16 + 2 * k)) 0.92%float = true).
  { rewrite Hcount, <- Htot5, Hlen, filter_length_all.
    rewrite Forall_forall. split.
    - intros H k Hk. destruct (Hstat k Hk) as (r & Hr & Hiff).
      apply Hiff. apply String.eqb_eq. apply (H r).
      eapply nth_error_In; eauto.
    - intros H r Hr. apply In_nth_error in Hr. destruct Hr as [k Hk].
      assert (Hk5 : k < 5).
      { rewrite <- Htot5, Hlen. apply nth_error_Some. congruence. }
      destruct (Hstat k Hk5) as (r' & Hr' & Hiff).
      rewrite Hk in Hr'. injection Hr' as <-.
      apply String.eqb_eq. apply Hiff. now apply H. }
  pose proof (overall_of_five _ Hle) as (H95 & H1 & Hone).
  assert (Hv : Validation.overall_status v =
               (if num_ge (Validation.success_rate v) 0.95%float then "passed"
                else if num_ge (Validation.success_rate v) 0.5%float
                     then "partial" else "failed") /\
               Validation.recommendations v =
               (if num_lt (Validation.success_rate v) 1%float
                then [reviewMessage] else [allPassedMessage])).
  { unfold v, generateMockValidation, rbind.
    destruct (randomHex 8 _) as [hex g1]. split; reflexivity. }
  destruct Hv as [Hov Hrec].
  rewrite Hrate, Herate, Htot5 in Hov, Hrec.
  split; [exact Hstat|]. split; [exact Hpassed|]. split; [exact Hrate|].
  split; [|split; [|split]].
  - rewrite Hcompleted, <- H95, Hov.
    destruct (num_ge _ 0.95%float); [tauto|].
    destruct (num_ge _ 0.5%float); split; discriminate.
  - now rewrite Hcompleted.
  - intros Hc. apply Hcompleted in Hc.
    split; [exact Hc|]. split.
    + rewrite Herate, Htot5. now apply Hone.
    + rewrite Hrec. apply H1 in Hc. now rewrite Hc.
  - reflexivity.
Qed.

(** X11: the log is append-only and stamped in order.  Whatever the
    generators do, a run keeps the entries that were there and appends
    its own; the k-th appended entry is stamped with the k-th reading
    of the clock, and the run takes exactly one reading per entry; the
    first appended entry names the file.  A run that completes appends
    18 entries, the last being the success message; a run that fails
    appends 5, 9, 15 or 17 entries, the last being the failure message
    with the error; and the run opens the pipeline tab. *)
Theorem runPipeline_log_append
  (G : Generators) (framework fileName : string) (w0 : World) :
  let w' := snd (runPipelineWith G framework fileName w0) in
  exists entries,
    logs w' = (logs w0 ++ entries)%list /\
    (forall k e, nth_error entries k = Some e ->
       exists msg, e = ("[" ++ clock w0 k ++ "] " ++ msg)%string) /\
    (forall n, clock w' n = clock w0 (List.length entries + n)) /\
    nth_error entries 0 =
      Some ("[" ++ clock w0 0 ++ "] Starting pipeline for: " ++ fileName)%string /\
    (PipelineState.status (pipeline w') = completed ->
     List.length entries = 18 /\
     nth_error entries 17 =
       Some ("[" ++ clock w0 17 ++ "] Pipeline completed successfully!")%string) /\
    (PipelineState.status (pipeline w') = failed ->
     In (List.length entries) [5; 9; 15; 17] /\
     exists err,
       nth_error entries (List.length entries - 1) =
       Some ("[" ++ clock w0 (List.length entries - 1)
                 ++ "] Pipeline failed: " ++ err)%string) /\
    activeTab w' = TabPipeline.
Proof.
  cbv zeta.
  run_cases G w0; state_fields;
    rewrite <- ?app_assoc; cbn [app];
    eexists; (split; [reflexivity|]);
    (split; [intros k x Hk;
             repeat (destruct k as [|k];
                     [injection Hk as <-; eexists; reflexivity|]);
             destruct k; discriminate Hk|]);
    (split; [intros n; reflexivity|]);
    (split; [reflexivity|]);
    (split; [intros Hc;
             first [discriminate Hc | split; reflexivity]|]);
    (split; [intros Hc;
             first [discriminate Hc
                   | split; [cbn [List.length In]; tauto
                            | eexists; reflexivity]]|]);
    reflexivity.
Qed.

(** ** Properties of the views *)

Lemma stageMark_last_not_done (p : PipelineState.t) :
  PipelineState.stage p <= 8 -> stageMark p 8 <> MarkDone.
Proof.
  intros H. unfold stageMark.
  destruct (Nat.ltb_spec 8 (PipelineState.stage p)); [lia|].
  destruct (_ && _); discriminate.
Qed.

(** X12: the stage list never shows the last stage as done.  In every
    state that a run goes through, whatever the generators do and
    whatever the state before the run was, the stage counter is between
    1 and 8, so the mark of stage 8 (Validate) is never the done mark;
    and in the final state of a completed run stages 1 to 7 are marked
    done and stage 8 is marked as not reached. *)
Theorem stage_list_never_completes
  (G : Generators) (framework fileName : string) (w0 : World) :
  let w' := snd (runPipelineWith G framework fileName w0) in
  exists trace,
    snapshots w' = (snapshots w0 ++ trace)%list /\
    last trace (pipeline w0) = pipeline w' /\
    (forall p, In p trace ->
       1 <= PipelineState.stage p <= 8 /\ stageMark p 8 <> MarkDone) /\
    (PipelineState.status (pipeline w') = completed ->
     map (stageMark (pipeline w')) STAGES =
       [MarkDone; MarkDone; MarkDone; MarkDone; MarkDone; MarkDone; MarkDone;
        MarkIdle]).
Proof.
  cbv zeta.
  run_cases G w0; state_fields;
    rewrite <- ?app_assoc; cbn [app];
    eexists; (split; [reflexivity|]);
    (split; [reflexivity|]);
    (split; [intros p Hp; cbn [In] in Hp;
             assert (Hs : 1 <= PipelineState.stage p <= 8)
               by (repeat (destruct Hp as [<- | Hp]; [state_fields; lia|]);
                   destruct Hp);
             split; [exact Hs | apply stageMark_last_not_done; lia]|]);
    intros Hc; first [discriminate Hc | reflexivity].
Qed.

Lemma pollHealth_failures (rs : list FetchResult) (s : HealthState) :
  (forall r, In r rs -> r = FetchNotOk \/ r = FetchRejected) ->
  health (pollHealth rs s) = health s /\
  healthError (pollHealth rs s) =
    match rs with [] => healthError s | _ => true end.
Proof.
  revert s. induction rs as [|r rs IH]; intros s H; [split; reflexivity|].
  assert (Hr : r = FetchNotOk \/ r = FetchRejected) by (apply H; now left).
  assert (Hrs : forall r', In r' rs -> r' = FetchNotOk \/ r' = FetchRejected)
    by (intros r' Hr'; apply H; now right).
  simpl. destruct (IH (checkHealth r s) Hrs) as [Hh He].
  rewrite Hh, He. destruct Hr as [-> | ->]; simpl; split; try reflexivity;
    destruct rs; reflexivity.
Qed.

(** X13: the health indicator never goes back to offline.  Once one
    health check has succeeded, any number of later failed checks (a
    response that is not ok, or a rejected request) leave [health] in
    place: the label keeps showing the version of the last successful
    check and the dot stays green, although [healthError] is set.
    Before any success, a failed check shows "API Offline" in red, and
    with no check finished the label is "Connecting...". *)
Theorem health_indicator_sticks
  (before after : list FetchResult) (data : HealthStatus.t) :
  (forall r, In r after -> r = FetchNotOk \/ r = FetchRejected) ->
  let s := pollHealth (before ++ FetchOk data :: after) initialHealth in
  healthLabel s = ("API v" ++ HealthStatus.version data)%string /\
  healthColor s = "#22c55e" /\
  healthError s = match after with [] => false | _ => true end /\
  (after <> [] ->
   healthLabel (pollHealth after initialHealth) = "API Offline" /\
   healthColor (pollHealth after initialHealth) = "#ef4444") /\
  healthLabel (pollHealth [] initialHealth) = "Connecting...".
Proof.
  intros H. cbv zeta.
  assert (Hsplit : pollHealth (before ++ FetchOk data :: after) initialHealth =
                   pollHealth after {| health := Some data; healthError := false |}).
  { unfold pollHealth. rewrite fold_left_app. reflexivity. }
  rewrite Hsplit.
  destruct (pollHealth_failures after
              {| health := Some data; healthError := false |} H) as [Hh He].
  destruct (pollHealth_failures after initialHealth H) as [Hh0 He0].
  unfold healthLabel, healthColor. rewrite Hh, He, Hh0, He0.
  destruct after as [|r after']; simpl;
    (split; [reflexivity|]); (split; [reflexivity|]);
    (split; [reflexivity|]); (split; [|reflexivity]); intros N.
  - now contradiction N.
  - split; reflexivity.
Qed.

Lemma health_indicator_sticks_witness :
  let data := HealthStatus.mk "healthy" "1.0.0" "development" in
  (forall r, In r [FetchNotOk; FetchRejected] ->
             r = FetchNotOk \/ r = FetchRejected) /\
  healthLabel (pollHealth [FetchRejected; FetchOk data; FetchNotOk; FetchRejected]
                          initialHealth) = "API v1.0.0".
Proof.
  cbv zeta.
  assert (H : forall r, In r [FetchNotOk; FetchRejected] ->
                        r = FetchNotOk \/ r = FetchRejected)
    by (intros r [<- | [<- | []]]; auto).
  split; [exact H|].
  exact (proj1 (health_indicator_sticks [FetchRejected]
                  [FetchNotOk; FetchRejected]
                  (HealthStatus.mk "healthy" "1.0.0" "development") H)).
Defined.

Lemma prefix_app (sub rest : string) : String.prefix sub (sub ++ rest) = true.
Proof.
  induction sub as [|c sub IH]; simpl; [destruct rest; reflexivity|].
  destruct (ascii_dec c c); [exact IH | congruence].
Qed.

Lemma includes_prefix (s sub : string) :
  String.prefix sub s = true -> includes s sub = true.
Proof.
  intros H. destruct s as [|c s]; simpl; [exact H|].
  simpl in H. now rewrite H.
Qed.

Lemma includes_app (a sub rest : string) :
  includes (a ++ sub ++ rest) sub = true.
Proof.
  induction a as [|c a IH].
  - change (includes (sub ++ rest) sub = true).
    apply includes_prefix, prefix_app.
  - change (includes (String c (a ++ sub ++ rest)) sub = true).
    cbn [includes]. rewrite IH. apply orb_true_r.
Qed.

(** X14: a log line that contains "failed" is shown in the failure
    colour, whatever surrounds the word; in particular the failure
    entry that a run appends is, whatever the time stamp and the error
    text are, and so is the start entry of a file whose name contains
    "failed". *)
Theorem failure_entry_is_red :
  (forall a b : string, logColor (a ++ "failed" ++ b) = "#f87171") /\
  (forall time err : string,
     logColor ("[" ++ time ++ "] Pipeline failed: " ++ err) = "#f87171") /\
  (forall time a b : string,
     logColor ("[" ++ time ++ "] Starting pipeline for: " ++ a ++ "failed" ++ b)
       = "#f87171").
Proof.
  assert (Hany : forall a b : string, logColor (a ++ "failed" ++ b) = "#f87171").
  { intros a b. unfold logColor. now rewrite includes_app. }
  assert (Hassoc : forall x y z : string,
            (x ++ y ++ z)%string = ((x ++ y) ++ z)%string).
  { intros x y z. induction x as [|c x IH]; simpl; [reflexivity|].
    now rewrite IH. }
  split; [exact Hany|]. split.
  - intros time err.
    replace ("[" ++ time ++ "] Pipeline failed: " ++ err)%string
      with (("[" ++ time ++ "] Pipeline ") ++ "failed" ++ (": " ++ err))%string;
      [apply Hany|].
    rewrite <- !Hassoc. reflexivity.
  - intros time a b.
    replace ("[" ++ time ++ "] Starting pipeline for: " ++ a ++ "failed" ++ b)%string
      with (("[" ++ time ++ "] Starting pipeline for: " ++ a)
              ++ "failed" ++ b)%string;
      [apply Hany|].
    rewrite <- !Hassoc. reflexivity.
Qed.

(** X15: the identifiers have a fixed shape.  For a random source
    within the contract of [Math.random()], the SOP id is "sop-", the
    execution id "exec-", the validation id "val-" and the video id of
    a run "video-", each followed by eight lower-case hexadecimal
    digits. *)
Theorem generated_ids_shape
  (videoId framework fileName : string) (analysis : Analysis.t) (sop : SOP.t)
  (execution : Execution.t) (w0 : World) :
  in_unit_interval (rng w0) ->
  let g := rng w0 in
  (exists h, SOP.id (fst (generateMockSOP videoId analysis g))
               = ("sop-" ++ h)%string /\ is_hex8 h) /\
  (exists h, Execution.execution_id (fst (generateMockExecution sop g))
               = ("exec-" ++ h)%string /\ is_hex8 h) /\
  (exists h, Validation.id (fst (generateMockValidation sop execution g))
               = ("val-" ++ h)%string /\ is_hex8 h) /\
  (exists h, PipelineState.videoId
               (pipeline (snd (runPipeline framework fileName w0)))
               = Some ("video-" ++ h)%string /\ is_hex8 h).
Proof.
  intros _. cbv zeta.
  assert (Hhex : forall g, is_hex8 (fst (randomHex 8 g))).
  { intros g. destruct (randomHex_core 8 g) as (Hl & Hc & _). now split. }
  split; [|split; [|split]].
  - unfold generateMockSOP, rbind. specialize (Hhex (rng w0)).
    destruct (randomHex 8 (rng w0)) as [hex g1]. eexists. split; [reflexivity|].
    exact Hhex.
  - unfold generateMockExecution, rbind.
    destruct (mapR stepResultOf (SOP.steps sop) (rng w0)) as [rs g1].
    specialize (Hhex g1).
    destruct (randomHex 8 g1) as [hex g2]. eexists. split; [reflexivity|].
    exact Hhex.
  - unfold generateMockValidation, rbind. specialize (Hhex (rng w0)).
    destruct (randomHex 8 (rng w0)) as [hex g1]. eexists. split; [reflexivity|].
    exact Hhex.
  - rewrite (proj1 (runPipeline_final_state framework fileName w0)).
    eexists. split; [reflexivity|]. apply Hhex.
Qed.

Lemma generated_ids_shape_witness :
  in_unit_interval (rng (initialWorld rng_half clock_noon)) /\
  PipelineState.videoId
    (pipeline (snd (runPipeline "adk" "demo.mp4"
                      (initialWorld rng_half clock_noon))))
    = Some "video-88888888".
Proof.
  assert (H : in_unit_interval (rng (initialWorld rng_half clock_noon)))
    by (intros n; split; reflexivity).
  split; [exact H|].
  destruct (generated_ids_shape "video-88888888" "adk" "demo.mp4"
              generateMockAnalysis mockSOP executionWithoutResults
              (initialWorld rng_half clock_noon) H)
    as (_ & _ & _ & h & Hid & _).
  rewrite Hid. vm_compute in Hid. injection Hid as <-. reflexivity.
Defined.
